(** * AFMNet [Dataclass]: data loading and preprocessing, verified

    A shallow embedding of [code/Dataclass.py].  The class wraps the
    torchvision / torch data API; the embedding keeps the control flow of
    every method and models the library calls it makes:

    - Python [float] arithmetic that decides an integer ([AFMcrop]) is
      IEEE-754 binary64, through the Standard Library's [SpecFloat];
    - tensor arithmetic (statistics, normalisation) is carried out over
      the real numbers: rounding error is not modelled, except for the
      normalise-and-display round trip, which is also given one value at
      a time in the code's float32 and float64;
    - Python lists that are mutated in place live in a heap of list
      objects, so that two names of one list are one location;
    - exceptions and the attributes of [self] are explicit, in a small
      state-and-exception monad. *)

From Stdlib Require Import ZArith List Sorted Ascii String Reals Lra Lia SpecFloat.
From stdpp Require Import base option list gmap strings.

Open Scope Z_scope.

(* ------------------------------------------------------------------ *)
(** ** Exceptions and results *)

(** The exception classes the methods and the libraries they call can
    raise.  [NotImplementedError] and [RecursionError] are subclasses of
    [RuntimeError] in Python. *)
Inductive exn :=
  | RuntimeError | NotImplementedError | RecursionError
  | ValueError | TypeError | KeyError | IndexError | AttributeError
  | FileNotFoundError | OSError | ZeroDivisionError | OverflowError
  | StopIteration.

(** [isinstance(e, RuntimeError)]: what [except RuntimeError] catches. *)
Definition is_RuntimeError (e : exn) : bool :=
  match e with
  | RuntimeError | NotImplementedError | RecursionError => true
  | _ => false
  end.

(** A computation without side effect that returns or raises. *)
Definition res (A : Type) : Type := exn + A.

Definition raise {A} (e : exn) : res A := inl e.

#[global] Instance res_ret : MRet res := fun A x => inr x.
#[global] Instance res_bind : MBind res := fun A B f m =>
  match m with
  | inl e => inl e
  | inr x => f x
  end.

(** [[f(x) for x in l]], evaluated left to right. *)
Fixpoint map_res {A B} (f : A -> res B) (l : list A) : res (list B) :=
  match l with
  | [] => mret []
  | x :: l' => y ← f x; ys ← map_res f l'; mret (y :: ys)
  end.

(* ------------------------------------------------------------------ *)
(** ** Python floats (IEEE-754 binary64) *)

Module Float64.

Definition prec : Z := 53.
Definition emax : Z := 1024.

(** [float(n)] for a Python integer. *)
Definition of_int (n : Z) : spec_float := binary_normalize prec emax n 0 false.

(** The literal [0.7]: the double nearest to 7/10, 0x3FE6666666666666. *)
Definition lit_0_7 : spec_float := S754_finite false 6305039478318694 (-53).

Definition mul (x y : spec_float) : spec_float := SFmul prec emax x y.

(** [math.floor] on a float; it raises on infinities and NaN. *)
Definition floor (x : spec_float) : res Z :=
  match x with
  | S754_zero _ => mret 0
  | S754_finite s m e =>
      let v := if s then Z.neg m else Z.pos m in
      mret (if 0 <=? e then v * 2 ^ e else v / 2 ^ (- e))
  | S754_infinity _ => raise OverflowError
  | S754_nan => raise ValueError
  end.

End Float64.

(* ------------------------------------------------------------------ *)
(** ** torch's float32 tensors *)

Module Float32.

Definition prec : Z := 24.
Definition emax : Z := 128.



Definition sub (x y : spec_float) : spec_float := SFsub prec emax x y.


End Float32.

(* ------------------------------------------------------------------ *)
(** ** PIL images and the scale-bar crop *)

(** A PIL image: its size, its number of bands and its pixel values
    (column [x], row [y], band [b]), each in 0..255. *)
Record pil_image := PIL {
  img_width : Z;
  img_height : Z;
  img_bands : nat;
  img_px : Z -> Z -> nat -> Z
}.

(** [img.size] *)
Definition img_size (img : pil_image) : Z * Z := (img_width img, img_height img).

(** [transforms.functional.crop(img, top, left, height, width)] on a PIL
    image is [img.crop((left, top, left + width, top + height))]. *)
Definition F_crop (img : pil_image) (top left height width : Z) : pil_image :=
  {| img_width := width;
     img_height := height;
     img_bands := img_bands img;
     img_px := fun x y b => img_px img (left + x) (top + y) b |}.

(** [new_w = math.floor(0.7*w)] *)
Definition AFMcrop_new_w (w : Z) : res Z :=
  Float64.floor (Float64.mul Float64.lit_0_7 (Float64.of_int w)).

(** [AFMcrop.__call__] *)
Definition AFMcrop_call (img : pil_image) : res pil_image :=
  let '(w, h) := img_size img in
  new_w ← AFMcrop_new_w w;
  mret (F_crop img 0 0 h new_w).

(* ------------------------------------------------------------------ *)
(** ** Tensors

    A tensor is a nested list of reals; an image tensor is channel-first,
    [C x H x W]. *)

Definition vec := list R.
Definition tensor3 := list (list (list R)).

(** The shape of a (rectangular) 3-d tensor. *)
Definition dims3 (t : tensor3) : nat * nat * nat :=
  (length t, length (hd [] t), length (hd [] (hd [] t))).

Definition zrange (n : Z) : list Z := map Z.of_nat (seq 0 (Z.to_nat n)).

(** [transforms.ToTensor] on an 8-bit PIL image: channel-first, scaled
    to [0, 1]. *)
Definition to_tensor (img : pil_image) : tensor3 :=
  map (fun c =>
         map (fun y =>
                map (fun x => (IZR (img_px img x y c) / 255)%R)
                    (zrange (img_width img)))
             (zrange (img_height img)))
      (seq 0 (img_bands img)).

(** Broadcasting a per-channel vector of length [C] or 1 against [C]
    channels. *)
Definition expand (v : vec) (C : nat) : option vec :=
  if decide (length v = C) then Some v
  else match v with
       | [x] => Some (repeat x C)
       | _ => None
       end.

(** [f] applied between every element of channel [c] and [v[c]]. *)
Definition chanwise (f : R -> R -> R) (t : tensor3) (v : vec) : tensor3 :=
  zip_with (fun ch x => map (map (fun p => f p x)) ch) t v.

Definition has_zero (v : vec) : bool :=
  existsb (fun x => if Req_dec_T x 0 then true else false) v.

(** [transforms.functional.normalize(tensor, mean, std)]:
    [tensor.sub_(mean[:, None, None]).div_(std[:, None, None])], after
    the check that no [std] is zero. *)
Definition F_normalize (t : tensor3) (mean std : vec) : res tensor3 :=
  if has_zero std then raise ValueError
  else match expand mean (length t) with
       | None => raise RuntimeError
       | Some m =>
           match expand std (length t) with
           | None => raise RuntimeError
           | Some s => mret (chanwise Rdiv (chanwise Rminus t m) s)
           end
       end.

(* ------------------------------------------------------------------ *)
(** ** Transform stages and pipelines *)

(** What flows through a pipeline: a PIL image or a tensor. *)
Inductive value :=
  | VImage (img : pil_image)
  | VTensor (t : tensor3).

(** A stage of a transform list.  [Custom] stands for any other
    torchvision transform the caller supplies (resize, flip, ...). *)
Inductive stage :=
  | AFMcrop
  | ToTensor
  | Normalize (mean std : vec)
  | Custom (name : string) (f : value -> res value).

(** Calling one stage. *)
Definition stage_call (s : stage) (v : value) : res value :=
  match s, v with
  | AFMcrop, VImage img => img' ← AFMcrop_call img; mret (VImage img')
  | AFMcrop, VTensor _ => raise TypeError
  | ToTensor, VImage img => mret (VTensor (to_tensor img))
  | ToTensor, VTensor _ => raise TypeError
  | Normalize mean std, VTensor t => t' ← F_normalize t mean std; mret (VTensor t')
  | Normalize _ _, VImage _ => raise TypeError
  | Custom _ f, v => f v
  end.

(** [Compose.__call__]: [for t in self.transforms: img = t(img)]. *)
Fixpoint Compose_call (stages : list stage) (v : value) : res value :=
  match stages with
  | [] => mret v
  | s :: rest => v' ← stage_call s v; Compose_call rest v'
  end.

(* ------------------------------------------------------------------ *)
(** ** Objects, the heap of lists and the state of a session *)

(** The identity of a Python list object. *)
Definition loc := positive.

(** [transforms.Compose(l)] keeps a reference to the list [l], it does
    not copy it. *)
Record Compose := { transforms : loc }.

(** [datasets.ImageFolder]: the class names, the samples (path, class
    index) and the pipeline applied to an image on access. *)
Record ImageFolder := {
  root : string;
  classes : list string;
  samples : list (string * nat);
  transform : Compose
}.

(** [torch.utils.data.DataLoader] *)
Record DataLoader := {
  dataset : ImageFolder;
  batch_size : Z;
  shuffle : bool;
  num_workers : Z
}.

(** The attributes of a [Dataclass] object; an attribute that has not
    been assigned yet is [None]. *)
Record Dataclass := {
  self_data_dir : string;
  self_mean : option vec;
  self_std : option vec;
  self_data_transforms : option (gmap string Compose);
  self_image_datasets : option (gmap string ImageFolder);
  self_dataloaders : option (gmap string DataLoader);
  self_dataset_sizes : option (gmap string nat);
  self_class_names : option (list string)
}.

(** [Dataclass.__init__] *)
Definition init (data_dir : string) : Dataclass :=
  {| self_data_dir := data_dir; self_mean := None; self_std := None;
     self_data_transforms := None; self_image_datasets := None;
     self_dataloaders := None; self_dataset_sizes := None;
     self_class_names := None |}.

(** What a session shows to the outside, in order: printed lines, the
    data loaders it constructs, the batches it asks for and the images
    it plots. *)
Inductive event :=
  | EvPrint (msg : string)
  | EvDataLoader (root : string) (batch_size : Z) (shuffle : bool) (num_workers : Z)
  | EvNextBatch (root : string)
  | EvImshow (img : tensor3) (title : option string).

Record state := {
  heap : gmap loc (list stage);
  self : Dataclass;
  events : list event
}.

(** A method: it reads and updates the state and returns or raises. *)
Definition M (A : Type) : Type := state -> res A * state.

#[global] Instance M_ret : MRet M := fun A x s => (inr x, s).
#[global] Instance M_bind : MBind M := fun A B f m s =>
  match m s with
  | (inl e, s') => (inl e, s')
  | (inr x, s') => f x s'
  end.

Definition throw {A} (e : exn) : M A := fun s => (inl e, s).

Definition lift {A} (r : res A) : M A := fun s => (r, s).

Definition get_self : M Dataclass := fun s => (inr (self s), s).

Definition get_heap : M (gmap loc (list stage)) := fun s => (inr (heap s), s).

Definition set_self (f : Dataclass -> Dataclass) : M unit := fun s =>
  (inr tt, {| heap := heap s; self := f (self s); events := events s |}).

Definition set_heap (h : gmap loc (list stage)) : M unit := fun s =>
  (inr tt, {| heap := h; self := self s; events := events s |}).

Definition emit (ev : event) : M unit := fun s =>
  (inr tt, {| heap := heap s; self := self s; events := events s ++ [ev] |}).

(** [try: body  except RuntimeError: handler] *)
Definition try_except_RuntimeError {A} (body handler : M A) : M A := fun s =>
  match body s with
  | (inl e, s') => if is_RuntimeError e then handler s' else (inl e, s')
  | (inr x, s') => (inr x, s')
  end.

(** Reading an attribute of [self]: [AttributeError] when it has not
    been assigned. *)
Definition attr {A} (f : Dataclass -> option A) : M A :=
  o ← get_self;
  match f o with
  | Some x => mret x
  | None => throw AttributeError
  end.

(** [d[k]] on a dict. *)
Definition getitem {A} (d : gmap string A) (k : string) : M A :=
  match d !! k with
  | Some x => mret x
  | None => throw KeyError
  end.

(** [{x: f(x) for x in keys}] *)
Fixpoint dict_comp_from {A} (d : gmap string A) (keys : list string)
    (f : string -> M A) : M (gmap string A) :=
  match keys with
  | [] => mret d
  | k :: keys' => v ← f k; dict_comp_from (<[k := v]> d) keys' f
  end.

Definition dict_comp {A} (keys : list string) (f : string -> M A) : M (gmap string A) :=
  dict_comp_from ∅ keys f.

(** Assignments to the attributes of [self]. *)
Definition with_mean (v : vec) (o : Dataclass) : Dataclass :=
  {| self_data_dir := self_data_dir o; self_mean := Some v; self_std := self_std o;
     self_data_transforms := self_data_transforms o;
     self_image_datasets := self_image_datasets o;
     self_dataloaders := self_dataloaders o;
     self_dataset_sizes := self_dataset_sizes o;
     self_class_names := self_class_names o |}.

Definition with_std (v : vec) (o : Dataclass) : Dataclass :=
  {| self_data_dir := self_data_dir o; self_mean := self_mean o; self_std := Some v;
     self_data_transforms := self_data_transforms o;
     self_image_datasets := self_image_datasets o;
     self_dataloaders := self_dataloaders o;
     self_dataset_sizes := self_dataset_sizes o;
     self_class_names := self_class_names o |}.

Definition with_data_transforms (d : gmap string Compose) (o : Dataclass) : Dataclass :=
  {| self_data_dir := self_data_dir o; self_mean := self_mean o; self_std := self_std o;
     self_data_transforms := Some d;
     self_image_datasets := self_image_datasets o;
     self_dataloaders := self_dataloaders o;
     self_dataset_sizes := self_dataset_sizes o;
     self_class_names := self_class_names o |}.

Definition with_image_datasets (d : gmap string ImageFolder) (o : Dataclass) : Dataclass :=
  {| self_data_dir := self_data_dir o; self_mean := self_mean o; self_std := self_std o;
     self_data_transforms := self_data_transforms o;
     self_image_datasets := Some d;
     self_dataloaders := self_dataloaders o;
     self_dataset_sizes := self_dataset_sizes o;
     self_class_names := self_class_names o |}.

Definition with_dataloaders (d : gmap string DataLoader) (o : Dataclass) : Dataclass :=
  {| self_data_dir := self_data_dir o; self_mean := self_mean o; self_std := self_std o;
     self_data_transforms := self_data_transforms o;
     self_image_datasets := self_image_datasets o;
     self_dataloaders := Some d;
     self_dataset_sizes := self_dataset_sizes o;
     self_class_names := self_class_names o |}.

Definition with_dataset_sizes (d : gmap string nat) (o : Dataclass) : Dataclass :=
  {| self_data_dir := self_data_dir o; self_mean := self_mean o; self_std := self_std o;
     self_data_transforms := self_data_transforms o;
     self_image_datasets := self_image_datasets o;
     self_dataloaders := self_dataloaders o;
     self_dataset_sizes := Some d;
     self_class_names := self_class_names o |}.

Definition with_class_names (l : list string) (o : Dataclass) : Dataclass :=
  {| self_data_dir := self_data_dir o; self_mean := self_mean o; self_std := self_std o;
     self_data_transforms := self_data_transforms o;
     self_image_datasets := self_image_datasets o;
     self_dataloaders := self_dataloaders o;
     self_dataset_sizes := self_dataset_sizes o;
     self_class_names := Some l |}.

(* ------------------------------------------------------------------ *)
(** ** [add_transforms] *)

(** [l.extend(xs)] on the list object [l]. *)
Definition list_extend (l : loc) (xs : list stage) : M unit :=
  h ← get_heap;
  match h !! l with
  | Some old => set_heap (<[l := old ++ xs]> h)
  | None => throw AttributeError
  end.

Definition add_transforms (transforms_train transforms_val : loc)
    (mean std : vec) : M unit :=
  set_self (with_mean mean);;
  set_self (with_std std);;
  list_extend transforms_train [ToTensor; Normalize mean std];;
  list_extend transforms_val [ToTensor; Normalize mean std];;
  set_self (with_data_transforms
              (<["val" := {| transforms := transforms_val |}]>
                 (<["train" := {| transforms := transforms_train |}]> ∅))).

(* ------------------------------------------------------------------ *)
(** ** Strings, paths and the file system *)

(** [sorted(l)]: a stable insertion sort. *)
Fixpoint insert_sorted {A} (le : A -> A -> bool) (x : A) (l : list A) : list A :=
  match l with
  | [] => [x]
  | y :: l' => if le x y then x :: l else y :: insert_sorted le x l'
  end.

Definition sorted {A} (le : A -> A -> bool) (l : list A) : list A :=
  foldr (insert_sorted le) [] l.

(** [s.endswith(suffix)] *)
Fixpoint endswith (s suffix : string) : bool :=
  if decide (s = suffix) then true
  else match s with
       | EmptyString => false
       | String _ s' => endswith s' suffix
       end.

Definition lower_ascii (c : ascii) : ascii :=
  let n := nat_of_ascii c in
  if ((65 <=? n) && (n <=? 90))%nat then ascii_of_nat (n + 32) else c.

(** [s.lower()], on ASCII letters. *)
Fixpoint lower (s : string) : string :=
  match s with
  | EmptyString => EmptyString
  | String c s' => String (lower_ascii c) (lower s')
  end.

(** [os.path.join(a, b)] (POSIX). *)
Definition path_join (a b : string) : string :=
  if String.prefix "/" b then b
  else if decide (a = "") then b
  else if endswith a "/" then a +:+ b
  else a +:+ "/" +:+ b.

(** torchvision's [IMG_EXTENSIONS]. *)
Definition IMG_EXTENSIONS : list string :=
  [".jpg"; ".jpeg"; ".png"; ".ppm"; ".bmp"; ".pgm"; ".tif"; ".tiff"; ".webp"].

(** [has_file_allowed_extension(filename, IMG_EXTENSIONS)] *)
Definition is_image_file (filename : string) : bool :=
  existsb (endswith (lower filename)) IMG_EXTENSIONS.

(** A directory tree.  The names in one directory are distinct. *)
#[warning="-register-all"]
Inductive fsnode :=
  | File (name : string)
  | Dir (name : string) (children : list fsnode).

Definition file_names (entries : list fsnode) : list string :=
  omap (fun n => match n with File f => Some f | Dir _ _ => None end) entries.

Definition dir_names (entries : list fsnode) : list string :=
  omap (fun n => match n with Dir d _ => Some d | File _ => None end) entries.

(** [os.walk(os.path.join(parent, name))] on a directory: the directory
    itself with its file names, then its subdirectories. *)
Fixpoint walk (parent : string) (n : fsnode) : list (string * list string) :=
  match n with
  | File _ => []
  | Dir name children =>
      let top := path_join parent name in
      (top, file_names children) :: flat_map (walk top) children
  end.

(** The image paths below one class directory, in the order of
    [make_dataset]: [for root, _, fnames in sorted(os.walk(target_dir)):
    for fname in sorted(fnames): path = os.path.join(root, fname);
    if is_valid_file(path): ...]. *)
Definition dir_paths (directory : string) (n : fsnode) : list string :=
  flat_map
    (fun '(r, fnames) =>
       List.filter is_image_file (map (path_join r) (sorted String.leb fnames)))
    (sorted (fun a b => String.leb (fst a) (fst b)) (walk directory n)).

(** The image paths of the class [target_class] of a split directory. *)
Definition class_paths (directory : string) (entries : list fsnode)
    (target_class : string) : list string :=
  flat_map
    (fun n =>
       match n with
       | Dir name _ =>
           if decide (name = target_class) then dir_paths directory n else []
       | File _ => []
       end)
    entries.

(** [find_classes]: the sorted names of the subdirectories. *)
Definition find_classes (entries : list fsnode) : res (list string) :=
  match sorted String.leb (dir_names entries) with
  | [] => raise FileNotFoundError
  | classes => mret classes
  end.

(** [make_dataset]: the samples of every class, in class order; a class
    without a valid file is an error. *)
Definition make_dataset (directory : string) (entries : list fsnode)
    (classes : list string) : res (list (string * nat)) :=
  let per_class :=
    imap (fun class_index target_class =>
            map (fun p => (p, class_index))
                (class_paths directory entries target_class))
         classes in
  if existsb (fun l => match l with [] => true | _ => false end) per_class
  then raise FileNotFoundError
  else mret (concat per_class).

(* ------------------------------------------------------------------ *)
(** ** The platform

    What the methods find outside the program: the file system, the
    image decoder, the faults of the data-loading machinery, the random
    order of a shuffling loader, and torchvision's grid builder. *)

Record platform := {
  (** the entries of each directory, by path *)
  fs : gmap string (list fsnode);
  (** torchvision's default loader: [Image.open(path).convert("RGB")] *)
  pil_loader : string -> res pil_image;
  (** what constructing this [DataLoader] raises, if anything *)
  loader_fault : DataLoader -> option exn;
  (** what starting the workers of this loader raises, if anything *)
  worker_fault : DataLoader -> option exn;
  (** the order a [RandomSampler] draws for a dataset of this size *)
  rand_perm : nat -> list nat;
  (** [torchvision.utils.make_grid] *)
  make_grid : list tensor3 -> tensor3
}.

(** Statistics accumulators: a Python float or a 1-d tensor. *)
Inductive pyval :=
  | PyFloat (x : R)
  | PyTensor (v : vec).

Section Methods.

Variable pf : platform.

(** [datasets.ImageFolder(root, transform)] *)
Definition ImageFolder_init (root : string) (transform : Compose) : res ImageFolder :=
  match fs pf !! root with
  | None => raise FileNotFoundError
  | Some entries =>
      classes ← find_classes entries;
      samples ← make_dataset root entries classes;
      mret {| root := root; classes := classes; samples := samples;
              transform := transform |}
  end.

(** [dataset[i]]: decode the file, run the pipeline the dataset refers
    to. *)
Definition ImageFolder_getitem (h : gmap loc (list stage)) (ds : ImageFolder)
    (i : nat) : res (value * nat) :=
  match samples ds !! i with
  | None => raise IndexError
  | Some (path, target) =>
      img ← pil_loader pf path;
      match h !! transforms (transform ds) with
      | None => raise TypeError
      | Some stages =>
          v ← Compose_call stages (VImage img);
          mret (v, target)
      end
  end.

(** [torch.utils.data.DataLoader(dataset, batch_size=, shuffle=,
    num_workers=)]: the argument checks, then whatever the platform
    makes of it. *)
Definition DataLoader_new (dataset : ImageFolder) (batch_size : Z)
    (shuffle : bool) (num_workers : Z) : res DataLoader :=
  let dl := {| dataset := dataset; batch_size := batch_size;
               shuffle := shuffle; num_workers := num_workers |} in
  if num_workers <? 0 then raise ValueError
  else if batch_size <=? 0 then raise ValueError
  else match loader_fault pf dl with
       | Some e => raise e
       | None => mret dl
       end.

Definition DataLoader_init (dataset : ImageFolder) (batch_size : Z)
    (shuffle : bool) (num_workers : Z) : M DataLoader :=
  emit (EvDataLoader (root dataset) batch_size shuffle num_workers);;
  lift (DataLoader_new dataset batch_size shuffle num_workers).

(** The order in which a loader visits its dataset. *)
Definition sampler (dl : DataLoader) : list nat :=
  let n := length (samples (dataset dl)) in
  if shuffle dl then rand_perm pf n else seq 0 n.

(** [BatchSampler.__iter__] with [drop_last=False]:
    [batch.append(idx); if len(batch) == batch_size: yield batch];
    a last, shorter batch is yielded too. *)
Fixpoint batch_sampler (batch_size : Z) (idxs : list nat) (batch : list nat)
    : list (list nat) :=
  match idxs with
  | [] => match batch with [] => [] | _ => [batch] end
  | idx :: rest =>
      let batch' := batch ++ [idx] in
      if Z.of_nat (length batch') =? batch_size
      then batch' :: batch_sampler batch_size rest []
      else batch_sampler batch_size rest batch'
  end.

Definition batch_indices (dl : DataLoader) : list (list nat) :=
  batch_sampler (batch_size dl) (sampler dl) [].

(** What [default_collate] accepts as an image: a tensor. *)
Definition as_tensor (v : value) : res tensor3 :=
  match v with
  | VTensor t => mret t
  | VImage _ => raise TypeError
  end.

(** [default_collate]: the images of a batch are stacked, which needs
    tensors of one shape ([torch.stack] raises a [RuntimeError]
    otherwise); the labels are gathered. *)
Definition default_collate (items : list (value * nat))
    : res (list tensor3 * list nat) :=
  ts ← map_res (fun it => as_tensor (fst it)) items;
  if forallb (fun t => bool_decide (dims3 t = dims3 (hd [] ts))) ts
  then mret (ts, map snd items)
  else raise RuntimeError.

(** One batch: fetch its items, collate them. *)
Definition fetch (h : gmap loc (list stage)) (dl : DataLoader) (idxs : list nat)
    : res (list tensor3 * list nat) :=
  items ← map_res (ImageFolder_getitem h (dataset dl)) idxs;
  default_collate items.

(** [iter(loader)]: with workers, the worker processes are started. *)
Definition loader_iter (dl : DataLoader) : res unit :=
  if 0 <? num_workers dl then
    match worker_fault pf dl with
    | Some e => raise e
    | None => mret tt
    end
  else mret tt.

(** [next(iter(loader))] *)
Definition loader_first (h : gmap loc (list stage)) (dl : DataLoader)
    : res (list tensor3 * list nat) :=
  loader_iter dl;;
  match batch_indices dl with
  | [] => raise StopIteration
  | idxs :: _ => fetch h dl idxs
  end.

(** *** [get_batchdata] *)
Definition get_batchdata (data : string) : M (tensor3 * list nat) :=
  dls ← attr self_dataloaders;
  dl ← getitem dls data;
  emit (EvNextBatch (root (dataset dl)));;
  h ← get_heap;
  b ← lift (loader_first h dl);
  mret (make_grid pf (fst b), snd b).

(** *** [load_data] *)

Definition warning : string :=
  "Using multiple workers failed. Using 0 workers instead. Using Spyder with Windows might cause this problem.".

Definition make_dataloaders (batch_size num_workers : Z) : M unit :=
  d ← dict_comp ["train"; "val"]
        (fun x =>
           dss ← attr self_image_datasets;
           ds ← getitem dss x;
           DataLoader_init ds batch_size true num_workers);
  set_self (with_dataloaders d).

Definition load_data (batch_size num_workers : Z) : M unit :=
  d ← dict_comp ["train"; "val"]
        (fun x =>
           o ← get_self;
           tfs ← attr self_data_transforms;
           tf ← getitem tfs x;
           lift (ImageFolder_init (path_join (self_data_dir o) x) tf));
  set_self (with_image_datasets d);;
  try_except_RuntimeError
    (make_dataloaders batch_size num_workers;;
     get_batchdata "train";;
     mret tt)
    (emit (EvPrint warning);;
     make_dataloaders batch_size 0);;
  sizes ← dict_comp ["train"; "val"]
            (fun x =>
               dss ← attr self_image_datasets;
               ds ← getitem dss x;
               mret (length (samples ds)));
  set_self (with_dataset_sizes sizes);;
  dss ← attr self_image_datasets;
  tr ← getitem dss "train";
  set_self (with_class_names (classes tr)).

(** *** [get_meanstd] *)

(** [x.mean()] and [x.std()] (unbiased, as torch computes it) of the
    flattened pixels of one channel.  On fewer than two pixels torch's
    std is NaN, which the reals do not have: [chan_std] is 0 there, and
    the statements about the values [get_meanstd] returns assume at
    least two pixels in every channel. *)
Definition Rsum (l : list R) : R := foldr Rplus 0%R l.

Definition chan_mean (px : list R) : R := (Rsum px / INR (length px))%R.

Definition chan_std (px : list R) : R :=
  let m := chan_mean px in
  sqrt (Rsum (map (fun x => (x - m) * (x - m))%R px) / (INR (length px) - 1))%R.

(** [t.sum(0)] of a [B x C] tensor. *)
Definition sum0 (C : nat) (rows : list (list R)) : vec :=
  map (fun c => Rsum (map (fun row => nth c row 0%R) rows)) (seq 0 C).

(** [acc += t] where [acc] starts as the float [0.]: the first
    addition makes a tensor, the later ones add in place. *)
Definition iadd (acc : pyval) (t : vec) : res pyval :=
  match acc with
  | PyFloat x => mret (PyTensor (map (fun y => (x + y)%R) t))
  | PyTensor m =>
      if decide (length t = length m) then mret (PyTensor (zip_with Rplus m t))
      else match t with
           | [y] => mret (PyTensor (map (fun x => (x + y)%R) m))
           | _ => raise RuntimeError
           end
  end.

(** [acc /= n] for a float [n]. *)
Definition idiv (acc : pyval) (n : R) : res pyval :=
  match acc with
  | PyFloat x =>
      if Req_dec_T n 0 then raise ZeroDivisionError else mret (PyFloat (x / n))
  | PyTensor m => mret (PyTensor (map (fun x => (x / n)%R) m))
  end.

(** The body of the loop, on the images [data[0]] of one batch. *)
Definition meanstd_step (acc : pyval * pyval * R) (data0 : list tensor3)
    : res (pyval * pyval * R) :=
  let '(mean, std, nb_samples) := acc in
  let batch_samples := length data0 in
  let C := length (hd [] data0) in
  let data := map (map (@concat R)) data0 in
  mean ← iadd mean (sum0 C (map (map chan_mean) data));
  std ← iadd std (sum0 C (map (map chan_std) data));
  mret (mean, std, (nb_samples + INR batch_samples)%R).

(** [for data in loader: ...] *)
Fixpoint meanstd_loop (h : gmap loc (list stage)) (loader : DataLoader)
    (batches : list (list nat)) (acc : pyval * pyval * R)
    : res (pyval * pyval * R) :=
  match batches with
  | [] => mret acc
  | idxs :: rest =>
      data ← fetch h loader idxs;
      acc' ← meanstd_step acc (fst data);
      meanstd_loop h loader rest acc'
  end.

(** [get_meanstd] up to the end of its loop: the accumulators. *)
Definition get_meanstd_sums (transform : loc) (batch_size : Z) (dataset : string)
    : M (pyval * pyval * R) :=
  h ← get_heap;
  tform ← match h !! transform with
          | Some l => mret l
          | None => throw AttributeError
          end;
  let tform_loc := fresh (dom h) in
  set_heap (<[tform_loc := tform ++ [ToTensor]]> h);;
  o ← get_self;
  ds ← lift (ImageFolder_init (path_join (self_data_dir o) dataset)
               {| transforms := tform_loc |});
  loader ← DataLoader_init ds batch_size false 0;
  h' ← get_heap;
  lift (loader_iter loader;;
        meanstd_loop h' loader (batch_indices loader)
          (PyFloat 0, PyFloat 0, 0%R)).

Definition get_meanstd (transform : loc) (batch_size : Z) (dataset : string)
    : M (pyval * pyval) :=
  acc ← get_meanstd_sums transform batch_size dataset;
  let '(mean, std, nb_samples) := acc in
  mean ← lift (idiv mean nb_samples);
  std ← lift (idiv std nb_samples);
  mret (mean, std).

(** *** [imshow] *)

(** [inp.numpy().transpose((1, 2, 0))]: channel-last. *)
Definition transpose_120 (inp : tensor3) : tensor3 :=
  map (fun y =>
         map (fun x => map (fun ch => nth x (nth y ch []) 0%R) inp)
             (seq 0 (length (hd [] (hd [] inp)))))
      (seq 0 (length (hd [] inp))).

(** numpy broadcasting of a list against the last axis (of length
    [C]) of an array: the result and the length of its last axis. *)
Definition np_last (f : R -> R -> R) (v : vec) (a : tensor3) (C : nat)
    : res (tensor3 * nat) :=
  if decide (length v = C) then mret (map (map (fun px => zip_with f v px)) a, C)
  else match v with
       | [x] => mret (map (map (map (f x))) a, C)
       | _ =>
           if decide (C = 1%nat)
           then mret (map (map (fun px => map (fun x => f x (hd 0%R px)) v)) a, length v)
           else raise ValueError
       end.

(** [np.clip(inp, 0, 1)] *)
Definition clip01 (x : R) : R := Rmin (Rmax x 0) 1.

(** The array [imshow] hands to the plot, as a function of the stored
    [std] and [mean]: lines 170-172. *)
Definition imshow_array (std mean : vec) (inp : tensor3) : res tensor3 :=
  let a := transpose_120 inp in
  '(a, C) ← np_last Rmult std a (length inp);
  '(a, _) ← np_last (fun m p => (p + m)%R) mean a C;
  mret (map (map (map clip01)) a).

(** [plt.imshow(inp)] on an array whose last axis has length [C]:
    matplotlib takes an [M x N x C] array as an image for [C] 3 or 4
    (and squeezes [C] = 1 to a 2-d array) and raises [TypeError]
    ("Invalid shape ... for image data") for any other [C]. *)
Definition plt_imshow (C : nat) : res unit :=
  match C with
  | 1%nat | 3%nat | 4%nat => mret tt
  | _ => raise TypeError
  end.

(** [imshow], lines 170-175, statement by statement: [self.std] is read
    and multiplied before [self.mean] is read and added. *)
Definition imshow (inp : tensor3) (title : option string) : M unit :=
  let a := transpose_120 inp in
  std ← attr self_std;
  '(a, C) ← lift (np_last Rmult std a (length inp));
  mean ← attr self_mean;
  '(a, C) ← lift (np_last (fun m p => (p + m)%R) mean a C);
  let arr := map (map (map clip01)) a in
  lift (plt_imshow C);;
  emit (EvImshow arr title).

End Methods.

(** *** The same two steps in floating point, one value at a time

    [Normalize] works on the float32 tensor [ToTensor] made, with
    [mean] and [std] converted to float32; [imshow] multiplies the
    float32 array by the list [self.std] and adds [self.mean], which
    numpy does in float64, and clips. *)




(* ------------------------------------------------------------------ *)
(** ** Notions used by the statements *)

(** The stages of the pipeline [self.data_transforms[split]]: the list
    its [Compose] refers to, as it is in the heap now. *)
Definition pipeline (st : state) (split : string) : option (list stage) :=
  d ← self_data_transforms (self st);
  c ← d !! split;
  heap st !! transforms c.

(** *** The scale-bar crop *)

(** The binary64 product [0.7*w] can fall just below the integer
    [7w/10]; its floor is then one less. *)
Definition new_w_matches (w : Z) : bool :=
  match AFMcrop_new_w w with
  | inr n => (n =? 7 * w / 10) || (n =? 7 * w / 10 - 1)
  | inl _ => false
  end.

(** Whether the crop keeps exactly [floor(7w/10)] columns. *)
Definition new_w_exact (w : Z) : bool :=
  match AFMcrop_new_w w with
  | inr n => n =? 7 * w / 10
  | inl _ => false
  end.

(** *** Normalisation and display *)

(** A [C x H x W] tensor. *)
Definition rect3 (C H W : nat) (t : tensor3) : Prop :=
  length t = C /\
  Forall (fun ch => length ch = H /\ Forall (fun row => length row = W) ch) t.

(** Every value lies in [0, 1]. *)
Definition in_unit (t : tensor3) : Prop :=
  Forall (Forall (Forall (fun p => 0 <= p <= 1)%R)) t.

(** The value at row [y], column [x] of a channel. *)
Definition at_yx (y x : nat) (ch : list (list R)) : R := nth x (nth y ch []) 0%R.


(** *** Loading *)

(** Both datasets of [load_data] open: the pipelines are composed and
    [ImageFolder] accepts the two split directories. *)
Definition datasets_open (pf : platform) (st : state) (tr va : ImageFolder) : Prop :=
  exists d ct cv,
    self_data_transforms (self st) = Some d /\
    d !! "train" = Some ct /\
    d !! "val" = Some cv /\
    ImageFolder_init pf (path_join (self_data_dir (self st)) "train") ct = inr tr /\
    ImageFolder_init pf (path_join (self_data_dir (self st)) "val") cv = inr va.

(** The outcome of constructing the "train" then the "val" loader. *)
Definition construct_loaders (pf : platform) (tr va : ImageFolder)
    (batch_size num_workers : Z) : res (DataLoader * DataLoader) :=
  l1 ← DataLoader_new pf tr batch_size true num_workers;
  l2 ← DataLoader_new pf va batch_size true num_workers;
  mret (l1, l2).

(** The constructions that attempt shows: "val" is only tried when
    "train" came up. *)
Definition construct_events (pf : platform) (tr va : ImageFolder)
    (batch_size num_workers : Z) : list event :=
  EvDataLoader (root tr) batch_size true num_workers ::
  match DataLoader_new pf tr batch_size true num_workers with
  | inl _ => []
  | inr _ => [EvDataLoader (root va) batch_size true num_workers]
  end.

(** The outcome of the guarded region of [load_data]: the two
    constructions, then one preview batch of "train". *)
Definition guarded_outcome (pf : platform) (h : gmap loc (list stage))
    (tr va : ImageFolder) (batch_size num_workers : Z) : res unit :=
  ls ← construct_loaders pf tr va batch_size num_workers;
  loader_first pf h (fst ls);;
  mret tt.

(** What the guarded region shows: the constructions and, when both
    loaders came up, the request for the preview batch. *)
Definition guarded_events (pf : platform) (tr va : ImageFolder)
    (batch_size num_workers : Z) : list event :=
  construct_events pf tr va batch_size num_workers ++
  match construct_loaders pf tr va batch_size num_workers with
  | inl _ => []
  | inr _ => [EvNextBatch (root tr)]
  end.

(** The state of a completed [load_data]. *)
Definition loaded (st : state) (tr va : ImageFolder) (l1 l2 : DataLoader)
    (evs : list event) : state :=
  {| heap := heap st;
     self := with_class_names (classes tr)
               (with_dataset_sizes
                  (<["val" := length (samples va)]>
                     (<["train" := length (samples tr)]> ∅))
                  (with_dataloaders (<["val" := l2]> (<["train" := l1]> ∅))
                     (with_image_datasets (<["val" := va]> (<["train" := tr]> ∅))
                        (self st))));
     events := events st ++ evs |}.

(** The state of a [load_data] that raised out of its loader phase: the
    datasets are stored, the sizes and class names are not. *)
Definition interrupted (st : state) (tr va : ImageFolder)
    (dls : option (gmap string DataLoader)) (evs : list event) : state :=
  {| heap := heap st;
     self := match dls with
             | Some d => with_dataloaders d
             | None => fun o => o
             end (with_image_datasets (<["val" := va]> (<["train" := tr]> ∅))
                    (self st));
     events := events st ++ evs |}.

(** The loaders the first attempt stored in [self.dataloaders], if it
    got that far. *)
Definition first_loaders (pf : platform) (tr va : ImageFolder)
    (batch_size num_workers : Z) : option (gmap string DataLoader) :=
  match construct_loaders pf tr va batch_size num_workers with
  | inr (l1, l2) => Some (<["val" := l2]> (<["train" := l1]> ∅))
  | inl _ => None
  end.

(** Whether the loader phase of [load_data] ends with loaders: the
    guarded region passes, or it raises a [RuntimeError] and the
    0-worker construction comes up. *)
Definition loaders_come_up (pf : platform) (h : gmap loc (list stage))
    (tr va : ImageFolder) (batch_size num_workers : Z) : bool :=
  match guarded_outcome pf h tr va batch_size num_workers with
  | inr _ => true
  | inl e =>
      is_RuntimeError e &&
      match construct_loaders pf tr va batch_size 0 with
      | inr _ => true
      | inl _ => false
      end
  end.

(** *** Directory trees *)

(** The number of image files in a directory tree. *)
Fixpoint count_images (n : fsnode) : nat :=
  match n with
  | File name => if is_image_file name then 1%nat else 0%nat
  | Dir _ children => sum_list_with count_images children
  end.

(** The number of image files below a directory with these entries. *)
Definition images_in (children : list fsnode) : nat :=
  sum_list_with count_images children.

(** A split directory that holds exactly the class directories "Bad"
    and "Good", listed in either order. *)
Definition Bad_Good (entries : list fsnode) (bad good : list fsnode) : Prop :=
  entries = [Dir "Bad" bad; Dir "Good" good] \/
  entries = [Dir "Good" good; Dir "Bad" bad].

(** Whether a string holds a path separator. *)
Fixpoint has_slash (s : string) : bool :=
  match s with
  | EmptyString => false
  | String c s' => if Ascii.eqb c "/" then true else has_slash s'
  end.

(** The number of image files among file names. *)
Definition n_images (fnames : list string) : nat :=
  length (List.filter is_image_file fnames).

(** The image files a node contributes as a file of its directory. *)
Definition own_image (n : fsnode) : nat :=
  match n with
  | File name => if is_image_file name then 1%nat else 0%nat
  | Dir _ _ => 0%nat
  end.

(** *** The mean/std estimator *)

(** One dataset item as the tensor a loader stacks. *)
Definition item_tensor (pf : platform) (h : gmap loc (list stage))
    (ds : ImageFolder) (i : nat) : res tensor3 :=
  it ← ImageFolder_getitem pf h ds i; as_tensor (fst it).

(** The image tensors of a dataset, in sample order, as a loader
    collates them. *)
Definition dataset_tensors (pf : platform) (h : gmap loc (list stage))
    (ds : ImageFolder) : res (list tensor3) :=
  map_res (item_tensor pf h ds) (seq 0 (length (samples ds))).

(** The batches of a loader stack: its batch size is 1 (and no batch is
    pending), or all images have one shape. *)
Definition stackable (bs : Z) (pending : list nat) (imgs : list tensor3) : Prop :=
  (bs = 1 /\ pending = []) \/ exists d, Forall (fun t => dims3 t = d) imgs.

(** Per channel, the sum over the images of the statistic [f] of the
    image's pixels in that channel. *)
Definition col_stat (f : list R -> R) (C : nat) (imgs : list tensor3) : vec :=
  map (fun c => Rsum (map (fun img => f (concat (nth c img []))) imgs)) (seq 0 C).

(** Per channel, the mean over the images of the per-image statistic. *)
Definition image_stat_mean (f : list R -> R) (imgs : list tensor3) : vec :=
  map (fun c =>
         (Rsum (map (fun img => f (concat (nth c img []))) imgs)
          / INR (length imgs))%R)
      (seq 0 (length (hd [] imgs))).

(** The accumulators of [get_meanstd] after the images [seen]. *)
Definition acc_of (C : nat) (seen : list tensor3) : pyval * pyval * R :=
  match seen with
  | [] => (PyFloat 0, PyFloat 0, 0%R)
  | _ => (PyTensor (col_stat chan_mean C seen),
          PyTensor (col_stat chan_std C seen),
          INR (length seen))
  end.

(** *** The estimator in the words of the specification

    Per channel: the mean of an image's pixels, their (unbiased)
    standard deviation, and the mean over the images of such a per-image
    statistic. *)
Definition total (l : list R) : R := fold_right Rplus 0%R l.

Definition channel_pixels (c : nat) (img : tensor3) : list R := concat (nth c img []).

Definition pixel_mean (px : list R) : R := (total px / INR (length px))%R.

Definition pixel_std (px : list R) : R :=
  sqrt (total (map (fun x => Rsqr (x - pixel_mean px)) px) / (INR (length px) - 1))%R.

Definition mean_over_images (f : list R -> R) (imgs : list tensor3) (c : nat) : R :=
  (total (map (fun img => f (channel_pixels c img)) imgs) / INR (length imgs))%R.

(** All pixels of a channel, of all images together. *)
Definition all_pixels (c : nat) (imgs : list tensor3) : list R :=
  concat (map (channel_pixels c) imgs).

(** Every channel of every image has at least two pixels (on fewer,
    torch's unbiased std is NaN). *)
Definition two_pixels (imgs : list tensor3) : Prop :=
  Forall (Forall (fun ch => (2 <= length (concat ch))%nat)) imgs.

(** Two one-channel images of two pixels: all black, all white. *)
Definition black_white : list tensor3 :=
  [ [[[0; 0]]]; [[[1; 1]]] ]%R.

(** *** A small session, for the examples *)

(** A session with two transform lists: [[AFMcrop]] and the empty one. *)
Definition two_lists : state :=
  {| heap := <[2%positive := []]> (<[1%positive := [AFMcrop]]> ∅);
     self := init "data";
     events := [] |}.

(** A split directory with one image per class. *)
Definition demo_split : list fsnode :=
  [Dir "Good" [File "g1.png"; File "notes.txt"]; Dir "Bad" [File "b1.JPG"]].

(** Two RGB images, 4 pixels wide and 1 high: black and white. *)
Definition demo_black : pil_image := PIL 4 1 3 (fun _ _ _ => 0).

Definition demo_white : pil_image := PIL 4 1 3 (fun _ _ _ => 255).

(** A platform on which a loader with workers cannot be constructed. *)
Definition no_worker_loaders : platform :=
  {| fs := <["data/val" := demo_split]> (<["data/train" := demo_split]> ∅);
     pil_loader := fun p =>
       if decide (p = "data/train/Good/g1.png") then inr demo_white
       else inr demo_black;
     loader_fault := fun dl => if 0 <? num_workers dl then Some RuntimeError else None;
     worker_fault := fun _ => None;
     rand_perm := fun n => seq 0 n;
     make_grid := fun l => hd [] l |}.

(** A platform on which the workers of a loader fail to start. *)
Definition no_worker_start : platform :=
  {| fs := <["data/val" := demo_split]> (<["data/train" := demo_split]> ∅);
     pil_loader := fun _ => inr demo_black;
     loader_fault := fun _ => None;
     worker_fault := fun _ => Some RuntimeError;
     rand_perm := fun n => seq 0 n;
     make_grid := fun l => hd [] l |}.

(** The session after [add_transforms] on the two lists. *)
Definition composed : state :=
  snd (add_transforms 1%positive 2%positive [0.5%R] [0.25%R] two_lists).

(** Its pipelines, its datasets and their loaders. *)
Definition demo_pipelines : gmap string Compose :=
  <["val" := {| transforms := 2%positive |}]>
    (<["train" := {| transforms := 1%positive |}]> ∅).

Definition demo_dataset (split : string) (l : loc) : ImageFolder :=
  {| root := "data" +:+ "/" +:+ split;
     classes := ["Bad"; "Good"];
     samples := [("data" +:+ "/" +:+ split +:+ "/Bad/b1.JPG", 0%nat);
                 ("data" +:+ "/" +:+ split +:+ "/Good/g1.png", 1%nat)];
     transform := {| transforms := l |} |}.

Definition demo_loader (ds : ImageFolder) (bs : Z) (sh : bool) (nw : Z) : DataLoader :=
  {| dataset := ds; batch_size := bs; shuffle := sh; num_workers := nw |}.

(** The two images after [AFMcrop] (4 columns become 2) and
    [ToTensor]. *)
Definition demo_tensors : list tensor3 :=
  [to_tensor (PIL 2 1 3 (fun _ _ _ => 0)); to_tensor (PIL 2 1 3 (fun _ _ _ => 255))].

(** A raw 2-channel image of one row and two columns. *)
Definition demo_raw : tensor3 := [ [[0.5; 1]]; [[0; 0.25]] ]%R.

(** *** Further notions *)

(** Whether the crop of a width succeeds and keeps [floor(7w/10)]
    columns or one less, never more than there are. *)
Definition new_w_sound (w : Z) : bool :=
  match AFMcrop_new_w w with
  | inr n =>
      (0 <=? n) && (n <=? w) &&
      ((n =? 7 * w / 10) || (n =? 7 * w / 10 - 1))
  | inl _ => false
  end.

(** The kinds of events. *)
Definition is_print (ev : event) : bool :=
  match ev with EvPrint _ => true | _ => false end.

Definition is_construction (ev : event) : bool :=
  match ev with EvDataLoader _ _ _ _ => true | _ => false end.

Definition is_batch_request (ev : event) : bool :=
  match ev with EvNextBatch _ => true | _ => false end.

(** An RGB image 8 pixels wide. *)
Definition demo_wide : pil_image := PIL 8 1 3 (fun _ _ _ => 0).

(** A platform without faults, on which the two "train" images differ
    in width. *)
Definition unequal_widths : platform :=
  {| fs := <["data/val" := demo_split]> (<["data/train" := demo_split]> ∅);
     pil_loader := fun p =>
       if decide (p = "data/train/Good/g1.png") then inr demo_wide
       else inr demo_black;
     loader_fault := fun _ => None;
     worker_fault := fun _ => None;
     rand_perm := fun n => seq 0 n;
     make_grid := fun l => hd [] l |}.


(** A session whose two pipelines are the one list [[ToTensor]]. *)
Definition plain_session : state :=
  {| heap := <[1%positive := [ToTensor]]> ∅;
     self := with_data_transforms
               (<["val" := {| transforms := 1%positive |}]>
                  (<["train" := {| transforms := 1%positive |}]> ∅))
               (init "data");
     events := [] |}.

(** An image tensor all of whose values are [V], with at least two
    pixels in every channel. *)
Definition constant_image (V : R) (t : tensor3) : Prop :=
  Forall (fun ch => (2 <= length (concat ch))%nat /\
                    Forall (fun p => p = V) (concat ch)) t.

(** A session whose statistics have three channels. *)
Definition three_stats : state :=
  snd (add_transforms 1%positive 2%positive [0.5; 0.5; 0.5]%R
         [0.25; 0.25; 0.25]%R two_lists).

(** A raw 3-channel image of one row and two columns. *)
Definition demo_rgb : tensor3 := [ [[0.5; 1]]; [[0; 0.25]]; [[1; 0.75]] ]%R.




(** A session whose statistics have two channels. *)
Definition two_stats : state :=
  snd (add_transforms 1%positive 2%positive [0.5; 0.5]%R [0.25; 0.5]%R two_lists).

(* ------------------------------------------------------------------ *)
(** ** The pipeline builder *)

(** [imshow] on an object that holds [std] and [mean]: the two
    broadcasts, the shape check of the plot, then the plot. *)
Lemma imshow_run (st : state) (inp : tensor3) (title : option string)
    (std mean : vec) :
  self_std (self st) = Some std ->
  self_mean (self st) = Some mean ->
  imshow inp title st =
    match np_last Rmult std (transpose_120 inp) (length inp) with
    | inl e => (inl e, st)
    | inr (a, C) =>
        match np_last (fun m p => (p + m)%R) mean a C with
        | inl e => (inl e, st)
        | inr (a', C') =>
            match plt_imshow C' with
            | inl e => (inl e, st)
            | inr _ =>
                (inr tt,
                 {| heap := heap st; self := self st;
                    events := events st ++ [EvImshow (map (map (map clip01)) a') title] |})
            end
        end
    end.
Proof.
  intros Hs Hm. destruct st as [h o ev]. cbn [self heap events] in *.
  unfold imshow, attr, get_self, lift, emit.
  cbv [mbind M_bind mret M_ret throw]; cbv beta iota; cbn [self heap events].
  rewrite Hs. cbv beta iota.
  destruct (np_last Rmult std (transpose_120 inp) (length inp)) as [e|[a C]];
    [reflexivity|].
  cbv beta iota; cbn [self heap events]. rewrite Hm. cbv beta iota.
  destruct (np_last _ mean a C) as [e|[a' C']]; [reflexivity|].
  cbv beta iota. destruct (plt_imshow C') as [e|[]]; reflexivity.
Qed.

(** What [imshow] plots is the array of lines 170-172 for the stored
    [std] and [mean]. *)
Lemma imshow_plots_array (st st2 : state) (inp : tensor3) (title : option string)
    (std mean : vec) :
  self_std (self st) = Some std ->
  self_mean (self st) = Some mean ->
  imshow inp title st = (inr tt, st2) ->
  exists arr,
    imshow_array std mean inp = inr arr /\
    st2 = {| heap := heap st; self := self st;
             events := events st ++ [EvImshow arr title] |}.
Proof.
  intros Hs Hm. rewrite (imshow_run st inp title std mean Hs Hm).
  unfold imshow_array. cbv [mbind res_bind mret res_ret]; cbv beta iota.
  destruct (np_last Rmult std (transpose_120 inp) (length inp)) as [e|[a C]];
    [discriminate|].
  destruct (np_last _ mean a C) as [e|[a' C']]; [discriminate|].
  destruct (plt_imshow C') as [e|[]]; [discriminate|].
  intros [= <-]. eexists. split; reflexivity.
Qed.

Section AddTransforms.

Variables (mean std : vec).

(** The state [add_transforms] leaves, for two list objects that may
    be one and the same. *)
Lemma add_transforms_run (st : state) (lt lv : loc) (xt xv : list stage) :
  heap st !! lt = Some xt ->
  <[lt := xt ++ [ToTensor; Normalize mean std]]> (heap st) !! lv = Some xv ->
  add_transforms lt lv mean std st =
    (inr tt,
     {| heap := <[lv := xv ++ [ToTensor; Normalize mean std]]>
                  (<[lt := xt ++ [ToTensor; Normalize mean std]]> (heap st));
        self := with_data_transforms
                  (<["val" := {| transforms := lv |}]>
                     (<["train" := {| transforms := lt |}]> ∅))
                  (with_std std (with_mean mean (self st)));
        events := events st |}).
Proof.
  intros Ht Hv. unfold add_transforms, list_extend, mbind, M_bind; cbn.
  rewrite Ht; cbn. rewrite Hv; cbn. reflexivity.
Qed.

Lemma pipeline_after_train (h : gmap loc (list stage)) (o : Dataclass)
    (ev : list event) (lt lv : loc) :
  pipeline {| heap := h;
              self := with_data_transforms
                        (<["val" := {| transforms := lv |}]>
                           (<["train" := {| transforms := lt |}]> ∅)) o;
              events := ev |} "train" = h !! lt.
Proof.
  unfold pipeline; cbn.
  rewrite lookup_insert_ne by discriminate. rewrite lookup_insert_eq. reflexivity.
Qed.

Lemma pipeline_after_val (h : gmap loc (list stage)) (o : Dataclass)
    (ev : list event) (lt lv : loc) :
  pipeline {| heap := h;
              self := with_data_transforms
                        (<["val" := {| transforms := lv |}]>
                           (<["train" := {| transforms := lt |}]> ∅)) o;
              events := ev |} "val" = h !! lv.
Proof.
  unfold pipeline; cbn. rewrite lookup_insert_eq. reflexivity.
Qed.

(** C3. Whatever the two transform lists hold when [add_transforms] is
    called, and whether they are two lists or one, both the "train"
    and the "val" pipeline it composes end with the two stages
    [ToTensor] then [Normalize mean std]. *)
Theorem add_transforms_pipelines_end (st : state) (lt lv : loc) :
  is_Some (heap st !! lt) ->
  is_Some (heap st !! lv) ->
  exists st',
    add_transforms lt lv mean std st = (inr tt, st') /\
    forall split, split = "train" \/ split = "val" ->
      exists pre,
        pipeline st' split = Some (pre ++ [ToTensor; Normalize mean std]).
Proof.
  intros [xt Ht] [xv Hv].
  destruct (decide (lt = lv)) as [->|Hne].
  - eexists; split.
    + apply (add_transforms_run st lv lv xt (xt ++ [ToTensor; Normalize mean std])); [exact Ht|].
      apply lookup_insert_eq.
    + intros split [->| ->];
        rewrite ?pipeline_after_train, ?pipeline_after_val;
        rewrite lookup_insert_eq; eexists; reflexivity.
  - eexists; split.
    + apply (add_transforms_run st lt lv xt xv); [exact Ht|].
      rewrite lookup_insert_ne by exact Hne. exact Hv.
    + intros split [->| ->];
        rewrite ?pipeline_after_train, ?pipeline_after_val.
      * rewrite lookup_insert_ne by congruence. rewrite lookup_insert_eq.
        eexists; reflexivity.
      * rewrite lookup_insert_eq. eexists; reflexivity.
Qed.

(** C6. [add_transforms] extends the caller's lists in place: called
    on two list objects it appends exactly [ToTensor; Normalize mean std]
    to each of them (when one object is passed for both, that one list
    gets the two stages twice), it leaves every other list alone, and it
    stores [mean] and [std] on the object, where [imshow] finds them:
    whatever [imshow] plots afterwards is computed with this [std] and
    this [mean]. *)
Theorem add_transforms_extends_caller_lists (st : state) (lt lv : loc)
    (xt xv : list stage) :
  heap st !! lt = Some xt ->
  heap st !! lv = Some xv ->
  exists st',
    add_transforms lt lv mean std st = (inr tt, st') /\
    (lt <> lv ->
       heap st' !! lt = Some (xt ++ [ToTensor; Normalize mean std]) /\
       heap st' !! lv = Some (xv ++ [ToTensor; Normalize mean std])) /\
    (lt = lv ->
       heap st' !! lt =
         Some (xt ++ [ToTensor; Normalize mean std; ToTensor; Normalize mean std])) /\
    (forall l, l <> lt -> l <> lv -> heap st' !! l = heap st !! l) /\
    self_mean (self st') = Some mean /\
    self_std (self st') = Some std /\
    forall inp title st2,
      imshow inp title st' = (inr tt, st2) ->
      exists arr,
        imshow_array std mean inp = inr arr /\
        st2 = {| heap := heap st'; self := self st';
                 events := events st' ++ [EvImshow arr title] |}.
Proof.
  intros Ht Hv.
  assert (Hv' : exists xv',
             <[lt := xt ++ [ToTensor; Normalize mean std]]> (heap st) !! lv = Some xv' /\
             (lt <> lv -> xv' = xv) /\
             (lt = lv -> xv' = xt ++ [ToTensor; Normalize mean std])).
  { destruct (decide (lt = lv)) as [->|Hne].
    - eexists. rewrite lookup_insert_eq. split; [reflexivity|]. split; congruence.
    - exists xv. rewrite lookup_insert_ne by exact Hne. split; [exact Hv|].
      split; congruence. }
  destruct Hv' as (xv' & Hlv & Hdist & Hsame).
  eexists; split.
  - apply (add_transforms_run st lt lv xt xv' Ht Hlv).
  - cbn [heap self self_mean self_std with_data_transforms with_std with_mean].
    split; [|split; [|split; [|split; [|split]]]]; try reflexivity.
    + intros Hne. rewrite (Hdist Hne). split.
      * rewrite lookup_insert_ne by congruence. apply lookup_insert_eq.
      * apply lookup_insert_eq.
    + intros Heq. rewrite (Hsame Heq). subst lv. rewrite lookup_insert_eq.
      rewrite <- app_assoc. reflexivity.
    + intros l H1 H2. rewrite !lookup_insert_ne by congruence. reflexivity.
    + intros inp title st2 Hshow.
      apply (imshow_plots_array _ st2 inp title std mean) in Hshow;
        [exact Hshow | reflexivity | reflexivity].
Qed.

(** C9. When one list object is passed for both [transforms_train] and
    [transforms_val], both in-place appends land on it: the list, and
    with it both pipelines, ends with [ToTensor; Normalize; ToTensor;
    Normalize]. *)
Theorem add_transforms_shared_list (st : state) (l : loc) (xs : list stage) :
  heap st !! l = Some xs ->
  exists st',
    add_transforms l l mean std st = (inr tt, st') /\
    let four := [ToTensor; Normalize mean std; ToTensor; Normalize mean std] in
    heap st' !! l = Some (xs ++ four) /\
    pipeline st' "train" = Some (xs ++ four) /\
    pipeline st' "val" = Some (xs ++ four).
Proof.
  intros Hl. eexists; split.
  - apply (add_transforms_run st l l xs (xs ++ [ToTensor; Normalize mean std])); [exact Hl|].
    apply lookup_insert_eq.
  - cbv zeta. rewrite pipeline_after_train, pipeline_after_val. cbn [heap].
    rewrite lookup_insert_eq. rewrite <- app_assoc. cbn.
    repeat split.
Qed.

End AddTransforms.

Lemma add_transforms_pipelines_end_witness :
  exists st',
    add_transforms 1%positive 2%positive [0.5%R] [0.25%R] two_lists = (inr tt, st') /\
    forall split, split = "train" \/ split = "val" ->
      exists pre,
        pipeline st' split = Some (pre ++ [ToTensor; Normalize [0.5%R] [0.25%R]]).
Proof.
  apply (add_transforms_pipelines_end [0.5%R] [0.25%R] two_lists 1%positive 2%positive).
  - exists [AFMcrop]. vm_compute. reflexivity.
  - exists []. vm_compute. reflexivity.
Defined.

Lemma add_transforms_extends_caller_lists_witness :
  exists st',
    add_transforms 1%positive 2%positive [0.5%R] [0.25%R] two_lists = (inr tt, st') /\
    heap st' !! 1%positive = Some ([AFMcrop] ++ [ToTensor; Normalize [0.5%R] [0.25%R]]) /\
    heap st' !! 2%positive = Some ([] ++ [ToTensor; Normalize [0.5%R] [0.25%R]]) /\
    self_mean (self st') = Some [0.5%R] /\
    self_std (self st') = Some [0.25%R].
Proof.
  destruct (add_transforms_extends_caller_lists [0.5%R] [0.25%R] two_lists
              1%positive 2%positive [AFMcrop] [])
    as (st' & Hrun & Hdist & _ & _ & Hm & Hs & _).
  - vm_compute. reflexivity.
  - vm_compute. reflexivity.
  - destruct Hdist as [H1 H2]; [discriminate|].
    exists st'. auto.
Defined.

Lemma add_transforms_shared_list_witness :
  exists st',
    add_transforms 1%positive 1%positive [0.5%R] [0.25%R] two_lists = (inr tt, st') /\
    pipeline st' "train" =
      Some [AFMcrop; ToTensor; Normalize [0.5%R] [0.25%R];
            ToTensor; Normalize [0.5%R] [0.25%R]].
Proof.
  destruct (add_transforms_shared_list [0.5%R] [0.25%R] two_lists 1%positive [AFMcrop])
    as (st' & Hrun & _ & Ht & _).
  - vm_compute. reflexivity.
  - exists st'. split; [exact Hrun | exact Ht].
Defined.

(* ------------------------------------------------------------------ *)
(** ** The scale-bar crop *)

(** What [AFMcrop] returns once the new width is known: the full
    height, the new width, and the pixels of the left columns. *)
Lemma AFMcrop_call_crop (img : pil_image) (n : Z) :
  AFMcrop_new_w (img_width img) = inr n ->
  exists out,
    AFMcrop_call img = inr out /\
    img_width out = n /\
    img_height out = img_height img /\
    img_bands out = img_bands img /\
    forall x y b, img_px out x y b = img_px img x y b.
Proof.
  intros Hn. unfold AFMcrop_call, img_size. rewrite Hn. cbn.
  eexists; split; [reflexivity|]. cbn. repeat split.
Qed.

(** For every width up to 4096 the crop succeeds, and its width is
    [floor(7w/10)] or one column less. *)
Lemma AFMcrop_new_w_upto_4096 :
  forallb new_w_matches (zrange 4097) = true.
Proof. vm_compute. reflexivity. Qed.

(** The widths up to 400 where it is one column less. *)
Lemma AFMcrop_new_w_short_upto_400 :
  List.filter (fun w => negb (new_w_exact w)) (zrange 401) =
    [90; 170; 180; 330; 340; 350; 360].
Proof. vm_compute. reflexivity. Qed.

(** C4, at a width the code gets wrong.  An image 90 pixels wide is
    cropped to 62 columns, one less than floor(0.7 * 90) = 63; the
    height is kept. *)
Theorem AFMcrop_width_90 (h : Z) (bands : nat) (px : Z -> Z -> nat -> Z) :
  exists out,
    AFMcrop_call (PIL 90 h bands px) = inr out /\
    img_width out = 62 /\
    img_height out = h /\
    7 * 90 / 10 = 63.
Proof.
  eexists. split; [|split; [|split]].
  - unfold AFMcrop_call, img_size; cbn [img_width img_height].
    replace (AFMcrop_new_w 90) with (inr 62 : res Z) by (vm_compute; reflexivity).
    reflexivity.
  - reflexivity.
  - reflexivity.
  - reflexivity.
Qed.

(* ------------------------------------------------------------------ *)
(** ** Normalisation and the display helper *)

Lemma nth_zip_with {A B D} (f : A -> B -> D) (c : nat) (a : list A) (b : list B)
    (da : A) (db : B) (dd : D) :
  (c < length a)%nat -> (c < length b)%nat ->
  nth c (zip_with f a b) dd = f (nth c a da) (nth c b db).
Proof.
  revert a b. induction c as [|c IH]; intros [|x a] [|y b] Ha Hb;
    cbn in *; try lia; [reflexivity|].
  apply IH; lia.
Qed.

Lemma length_zip_with_same {A B D} (f : A -> B -> D) (a : list A) (b : list B) :
  length a = length b -> length (zip_with f a b) = length a.
Proof.
  revert b. induction a as [|x a IH]; intros [|y b] H; cbn in *; try lia.
  rewrite IH; lia.
Qed.

Lemma nth_map_seq {A} (f : nat -> A) (n i : nat) (d : A) :
  (i < n)%nat -> nth i (map f (seq 0 n)) d = f i.
Proof.
  intros H. rewrite (nth_indep _ d (f 0%nat)) by (rewrite length_map, length_seq; lia).
  rewrite (map_nth f (seq 0 n) 0%nat i), seq_nth by lia. reflexivity.
Qed.

Lemma rect3_hd (C H W : nat) (inp : tensor3) :
  rect3 C H W inp -> (0 < C)%nat ->
  length (hd [] inp) = H /\
  ((0 < H)%nat -> length (hd [] (hd [] inp)) = W).
Proof.
  intros [Hl Hall] HC. destruct inp as [|ch inp]; [cbn in Hl; lia|].
  apply Forall_cons in Hall as [[Hh Hrows] _]. cbn. split; [exact Hh|].
  intros HH. destruct ch as [|row ch]; [cbn in Hh; lia|].
  apply Forall_cons in Hrows as [Hw _]. exact Hw.
Qed.
















(* ------------------------------------------------------------------ *)
(** ** Loading: the fallback to zero workers *)

Ltac mstep :=
  cbv [mbind M_bind mret M_ret get_self get_heap set_self set_heap emit lift
       throw attr getitem try_except_RuntimeError DataLoader_init
       dict_comp dict_comp_from make_dataloaders get_batchdata];
  cbv beta iota;
  cbn [self heap events fst snd self_data_dir self_mean self_std
       self_data_transforms self_image_datasets self_dataloaders
       self_dataset_sizes self_class_names with_mean with_std
       with_data_transforms with_image_datasets with_dataloaders
       with_dataset_sizes with_class_names].

Ltac rstep := cbv [res_bind res_ret raise]; cbv beta iota.

Ltac mlookup :=
  repeat first [ rewrite lookup_insert_eq
               | rewrite lookup_insert_ne by discriminate ].

Lemma DataLoader_new_inr (pf : platform) (ds : ImageFolder) (bs : Z) (sh : bool)
    (nw : Z) (l : DataLoader) :
  DataLoader_new pf ds bs sh nw = inr l ->
  l = {| dataset := ds; batch_size := bs; shuffle := sh; num_workers := nw |} /\
  0 < bs /\ 0 <= nw.
Proof.
  unfold DataLoader_new.
  destruct (Z.ltb_spec nw 0); [discriminate|].
  destruct (Z.leb_spec bs 0); [discriminate|].
  destruct (loader_fault pf _); [discriminate|].
  intros [= <-]. repeat split; lia.
Qed.

(** [load_data], once its datasets are open, case by case. *)
Lemma load_data_run (pf : platform) (st : state) (bs nw : Z) (tr va : ImageFolder) :
  datasets_open pf st tr va ->
  load_data pf bs nw st =
    match guarded_outcome pf (heap st) tr va bs nw with
    | inr _ =>
        match construct_loaders pf tr va bs nw with
        | inr (l1, l2) =>
            (inr tt, loaded st tr va l1 l2 (guarded_events pf tr va bs nw))
        | inl e => (inl e, st)
        end
    | inl e =>
        if is_RuntimeError e then
          match construct_loaders pf tr va bs 0 with
          | inr (l1, l2) =>
              (inr tt,
               loaded st tr va l1 l2
                 (guarded_events pf tr va bs nw ++
                  [EvPrint warning] ++ construct_events pf tr va bs 0))
          | inl e2 =>
              (inl e2,
               interrupted st tr va (first_loaders pf tr va bs nw)
                 (guarded_events pf tr va bs nw ++
                  [EvPrint warning] ++ construct_events pf tr va bs 0))
          end
        else
          (inl e,
           interrupted st tr va (first_loaders pf tr va bs nw)
             (guarded_events pf tr va bs nw))
    end.
Proof.
  intros (d & ct & cv & Hd & Ht & Hv & Htr & Hva).
  unfold guarded_outcome, guarded_events, first_loaders, construct_events,
    construct_loaders, loaded, interrupted.
  unfold load_data.
  repeat (progress (mstep; mlookup; rewrite ?Hd, ?Ht, ?Htr, ?Hv, ?Hva)).
  cbv [res_bind res_ret raise]; cbv beta iota.
  destruct (DataLoader_new pf tr bs true nw) as [e1|l1] eqn:E1; rstep.
  - (* the "train" loader does not come up *)
    destruct (is_RuntimeError e1); [|rewrite <- ?app_assoc; reflexivity].
    destruct (DataLoader_new pf tr bs true 0) as [e3|l3] eqn:E3; rstep;
      repeat (progress (mstep; mlookup; rewrite ?E3));
      [rewrite <- ?app_assoc; reflexivity|].
    destruct (DataLoader_new pf va bs true 0) as [e4|l4] eqn:E4; rstep;
      repeat (progress (mstep; mlookup; rewrite ?E4));
      rewrite <- ?app_assoc; reflexivity.
  - repeat (progress (mstep; mlookup)).
    destruct (DataLoader_new pf va bs true nw) as [e2|l2] eqn:E2; rstep.
    + (* the "val" loader does not come up *)
      destruct (is_RuntimeError e2); [|rewrite <- ?app_assoc; reflexivity].
      destruct (DataLoader_new pf tr bs true 0) as [e3|l3] eqn:E3; rstep;
        repeat (progress (mstep; mlookup; rewrite ?E3));
        [rewrite <- ?app_assoc; reflexivity|].
      destruct (DataLoader_new pf va bs true 0) as [e4|l4] eqn:E4; rstep;
        repeat (progress (mstep; mlookup; rewrite ?E4));
        rewrite <- ?app_assoc; reflexivity.
    + repeat (progress (mstep; mlookup)).
      destruct (DataLoader_new_inr _ _ _ _ _ _ E1) as [-> _]. cbn [dataset].
      destruct (loader_first pf (heap st) _) as [e5|b] eqn:E5; rstep.
      * (* the preview batch raises *)
        destruct (is_RuntimeError e5); [|rewrite <- ?app_assoc; reflexivity].
        destruct (DataLoader_new pf tr bs true 0) as [e3|l3] eqn:E3; rstep;
          repeat (progress (mstep; mlookup; rewrite ?E3));
          [rewrite <- ?app_assoc; reflexivity|].
        destruct (DataLoader_new pf va bs true 0) as [e4|l4] eqn:E4; rstep;
          repeat (progress (mstep; mlookup; rewrite ?E4));
          rewrite <- ?app_assoc; reflexivity.
      * repeat (progress (mstep; mlookup)).
        rewrite <- ?app_assoc; reflexivity.
Qed.

Lemma construct_loaders_inr (pf : platform) (tr va : ImageFolder) (bs nw : Z)
    (l1 l2 : DataLoader) :
  construct_loaders pf tr va bs nw = inr (l1, l2) ->
  DataLoader_new pf tr bs true nw = inr l1 /\
  DataLoader_new pf va bs true nw = inr l2.
Proof.
  unfold construct_loaders. rstep.
  cbv [mbind mret res_bind res_ret]; cbv beta iota.
  destruct (DataLoader_new pf tr bs true nw); [discriminate|].
  destruct (DataLoader_new pf va bs true nw); [discriminate|].
  intros [= <- <-]. split; reflexivity.
Qed.

Lemma construct_events_inr (pf : platform) (tr va : ImageFolder) (bs nw : Z)
    (l1 l2 : DataLoader) :
  construct_loaders pf tr va bs nw = inr (l1, l2) ->
  construct_events pf tr va bs nw =
    [EvDataLoader (root tr) bs true nw; EvDataLoader (root va) bs true nw].
Proof.
  intros H. apply construct_loaders_inr in H as [H1 _].
  unfold construct_events. rewrite H1. reflexivity.
Qed.

(** C2. When the construction of the loaders with [num_workers] workers
    raises a [RuntimeError], [load_data] prints the warning and
    constructs them again, once, with 0 workers.  If that construction
    comes up, the load completes and nothing is raised: the object
    holds the 0-worker loaders, the two dataset sizes and the class
    names of "train".  If it raises, that exception reaches the caller
    and there is no second retry: nothing more is constructed, and no
    loaders, sizes or class names are stored. *)
Theorem load_data_falls_back_once (pf : platform) (st : state) (bs nw : Z)
    (tr va : ImageFolder) (e : exn) :
  datasets_open pf st tr va ->
  construct_loaders pf tr va bs nw = inl e ->
  is_RuntimeError e = true ->
  (forall l1 l2,
     construct_loaders pf tr va bs 0 = inr (l1, l2) ->
     num_workers l1 = 0 /\ num_workers l2 = 0 /\
     exists st' loaders sizes,
       load_data pf bs nw st = (inr tt, st') /\
       st' = loaded st tr va l1 l2
               (construct_events pf tr va bs nw ++
                [EvPrint warning;
                 EvDataLoader (root tr) bs true 0;
                 EvDataLoader (root va) bs true 0]) /\
       events st' =
         events st ++ construct_events pf tr va bs nw ++
         [EvPrint warning;
          EvDataLoader (root tr) bs true 0;
          EvDataLoader (root va) bs true 0] /\
       self_dataloaders (self st') = Some loaders /\
       loaders !! "train" = Some l1 /\
       loaders !! "val" = Some l2 /\
       self_dataset_sizes (self st') = Some sizes /\
       sizes !! "train" = Some (length (samples tr)) /\
       sizes !! "val" = Some (length (samples va)) /\
       self_class_names (self st') = Some (classes tr)) /\
  (forall e2,
     construct_loaders pf tr va bs 0 = inl e2 ->
     exists st',
       load_data pf bs nw st = (inl e2, st') /\
       st' = interrupted st tr va None
               (construct_events pf tr va bs nw ++
                [EvPrint warning] ++ construct_events pf tr va bs 0) /\
       events st' =
         events st ++ construct_events pf tr va bs nw ++
         [EvPrint warning] ++ construct_events pf tr va bs 0 /\
       self_dataloaders (self st') = self_dataloaders (self st) /\
       self_dataset_sizes (self st') = self_dataset_sizes (self st) /\
       self_class_names (self st') = self_class_names (self st)).
Proof.
  intros Hopen Hfail Hrt.
  pose proof (load_data_run pf st bs nw tr va Hopen) as Hrun.
  unfold guarded_outcome, guarded_events, first_loaders in Hrun.
  rewrite Hfail in Hrun. cbv [mbind res_bind] in Hrun.
  rewrite Hrt, app_nil_r in Hrun.
  split.
  - intros l1 l2 Hretry. rewrite Hretry in Hrun.
    rewrite (construct_events_inr _ _ _ _ _ _ _ Hretry) in Hrun.
    apply construct_loaders_inr in Hretry as [H1 H2].
    apply DataLoader_new_inr in H1 as [-> _].
    apply DataLoader_new_inr in H2 as [-> _].
    split; [reflexivity|]. split; [reflexivity|].
    eexists. eexists. eexists.
    split; [exact Hrun|]. split; [reflexivity|].
    unfold loaded.
    cbn [events self self_dataloaders self_dataset_sizes self_class_names
         with_class_names with_dataset_sizes with_dataloaders with_image_datasets].
    split; [reflexivity|]. split; [reflexivity|].
    split; [rewrite lookup_insert_ne by discriminate; apply lookup_insert_eq|].
    split; [apply lookup_insert_eq|].
    split; [reflexivity|].
    split; [rewrite lookup_insert_ne by discriminate; apply lookup_insert_eq|].
    split; [apply lookup_insert_eq|]. reflexivity.
  - intros e2 Hretry. rewrite Hretry in Hrun.
    eexists. split; [exact Hrun|]. split; [reflexivity|].
    unfold interrupted.
    cbn [events self self_dataloaders self_dataset_sizes self_class_names
         with_image_datasets].
    repeat split.
Qed.

(** C10. The guarded region of [load_data] includes the preview batch:
    a [RuntimeError] raised while fetching it triggers the 0-worker
    fallback as well, and the fallback fetches no batch (the one
    [EvNextBatch] precedes the warning).  An exception that is not a
    [RuntimeError] (not an instance of it), raised anywhere in the
    guarded region, reaches the caller: no warning, no retry, no sizes
    or class names recorded. *)
Theorem load_data_guard_covers_preview (pf : platform) (st : state) (bs nw : Z)
    (tr va : ImageFolder) :
  datasets_open pf st tr va ->
  (forall l1 l2 e l1' l2',
     construct_loaders pf tr va bs nw = inr (l1, l2) ->
     loader_first pf (heap st) l1 = inl e ->
     is_RuntimeError e = true ->
     construct_loaders pf tr va bs 0 = inr (l1', l2') ->
     load_data pf bs nw st =
       (inr tt,
        loaded st tr va l1' l2'
          [EvDataLoader (root tr) bs true nw;
           EvDataLoader (root va) bs true nw;
           EvNextBatch (root tr);
           EvPrint warning;
           EvDataLoader (root tr) bs true 0;
           EvDataLoader (root va) bs true 0])) /\
  (forall e,
     guarded_outcome pf (heap st) tr va bs nw = inl e ->
     is_RuntimeError e = false ->
     load_data pf bs nw st =
       (inl e,
        interrupted st tr va (first_loaders pf tr va bs nw)
          (guarded_events pf tr va bs nw)) /\
     ~ In (EvPrint warning) (guarded_events pf tr va bs nw)).
Proof.
  intros Hopen.
  pose proof (load_data_run pf st bs nw tr va Hopen) as Hrun.
  split.
  - intros l1 l2 e l1' l2' Hfirst Hbatch Hrt Hretry.
    unfold guarded_outcome, guarded_events in Hrun.
    rewrite Hfirst in Hrun. cbv [mbind res_bind fst] in Hrun.
    rewrite Hbatch, Hrt, Hretry in Hrun.
    rewrite (construct_events_inr _ _ _ _ _ _ _ Hfirst) in Hrun.
    rewrite (construct_events_inr _ _ _ _ _ _ _ Hretry) in Hrun.
    exact Hrun.
  - intros e Hg Hrt. rewrite Hg, Hrt in Hrun. split; [exact Hrun|].
    unfold guarded_events, construct_events.
    destruct (DataLoader_new pf tr bs true nw);
      destruct (construct_loaders pf tr va bs nw); cbn;
      intros H; repeat (destruct H as [H|H]; [discriminate H|]); exact H.
Qed.

(** Once the datasets are open and the loaders come up, [load_data]
    completes and records the sizes and the class names. *)
Lemma load_data_records (pf : platform) (st : state) (bs nw : Z) (tr va : ImageFolder) :
  datasets_open pf st tr va ->
  loaders_come_up pf (heap st) tr va bs nw = true ->
  exists l1 l2 evs, load_data pf bs nw st = (inr tt, loaded st tr va l1 l2 evs).
Proof.
  intros Hopen Hup.
  rewrite (load_data_run pf st bs nw tr va Hopen).
  unfold loaders_come_up in Hup.
  destruct (guarded_outcome pf (heap st) tr va bs nw) as [e|[]] eqn:Hg.
  - apply andb_prop in Hup as [-> Hup].
    destruct (construct_loaders pf tr va bs 0) as [|[l1 l2]]; [discriminate|].
    eauto.
  - unfold guarded_outcome in Hg.
    destruct (construct_loaders pf tr va bs nw) as [|[l1 l2]]; [discriminate|].
    eauto.
Qed.

(* ------------------------------------------------------------------ *)
(** ** Loading: class names and dataset sizes *)

Lemma has_slash_app (p f : string) : has_slash (p +:+ String "/" f) = true.
Proof.
  induction p as [|c p IH]; [reflexivity|].
  change (String c p +:+ String "/" f) with (String c (p +:+ String "/" f)).
  cbn [has_slash]. destruct (Ascii.eqb c "/"); auto.
Qed.

Lemma endswith_unfold (s suffix : string) :
  endswith s suffix =
    if decide (s = suffix) then true
    else match s with
         | EmptyString => false
         | String _ s' => endswith s' suffix
         end.
Proof. destruct s; reflexivity. Qed.

Lemma endswith_after_slash (p f e : string) :
  has_slash e = false ->
  endswith (p +:+ String "/" f) e = endswith f e.
Proof.
  intros He. induction p as [|c p IH].
  - change ("" +:+ String "/" f) with (String "/" f). rewrite endswith_unfold.
    destruct (decide (String "/" f = e)) as [<-|_]; [|reflexivity].
    cbn in He. discriminate.
  - change (String c p +:+ String "/" f) with (String c (p +:+ String "/" f)).
    rewrite endswith_unfold.
    destruct (decide (String c (p +:+ String "/" f) = e)) as [<-|_]; [|exact IH].
    cbn [has_slash] in He. destruct (Ascii.eqb c "/"); [discriminate|].
    rewrite has_slash_app in He. discriminate.
Qed.

Lemma endswith_slash (a : string) :
  endswith a "/" = true -> exists a', a = a' +:+ "/".
Proof.
  induction a as [|c a IH]; rewrite endswith_unfold.
  - destruct (decide ("" = "/")); discriminate.
  - destruct (decide (String c a = "/")) as [->|_].
    + exists "". reflexivity.
    + intros H. destruct (IH H) as [a' ->]. exists (String c a'). reflexivity.
Qed.

Lemma lower_app (a b : string) : lower (a +:+ b) = lower a +:+ lower b.
Proof.
  induction a as [|c a IH]; [reflexivity|].
  change (lower (String c (a +:+ b)) = String (lower_ascii c) (lower a +:+ lower b)).
  cbn [lower]. f_equal. exact IH.
Qed.

Lemma string_app_assoc (a b c : string) : (a +:+ b) +:+ c = a +:+ (b +:+ c).
Proof.
  induction a as [|x a IH]; [reflexivity|].
  change (String x ((a +:+ b) +:+ c) = String x (a +:+ (b +:+ c))).
  f_equal. exact IH.
Qed.

Lemma is_image_file_after_slash (p f : string) :
  is_image_file (p +:+ String "/" f) = is_image_file f.
Proof.
  unfold is_image_file. rewrite lower_app.
  change (lower (String "/" f)) with (String (lower_ascii "/") (lower f)).
  replace (lower_ascii "/") with "/"%char by (vm_compute; reflexivity).
  unfold IMG_EXTENSIONS. cbn [existsb].
  rewrite !endswith_after_slash by (vm_compute; reflexivity).
  reflexivity.
Qed.

(** Whether a path counts as an image only depends on its last
    component. *)
Lemma is_image_file_path_join (a b : string) :
  is_image_file (path_join a b) = is_image_file b.
Proof.
  unfold path_join.
  destruct (String.prefix "/" b); [reflexivity|].
  destruct (decide (a = "")); [reflexivity|].
  destruct (endswith a "/") eqn:E.
  - apply endswith_slash in E as [a' ->].
    rewrite string_app_assoc. apply is_image_file_after_slash.
  - apply is_image_file_after_slash.
Qed.

Lemma insert_sorted_perm {A} (le : A -> A -> bool) (x : A) (l : list A) :
  Permutation (insert_sorted le x l) (x :: l).
Proof.
  induction l as [|y l IH]; cbn; [reflexivity|].
  destruct (le x y); [reflexivity|].
  rewrite IH. apply perm_swap.
Qed.

(** [sorted] rearranges, it neither drops nor repeats. *)
Lemma sorted_perm {A} (le : A -> A -> bool) (l : list A) :
  Permutation (sorted le l) l.
Proof.
  induction l as [|x l IH]; cbn; [reflexivity|].
  rewrite insert_sorted_perm. constructor. exact IH.
Qed.

Lemma n_images_perm (l l' : list string) :
  Permutation l l' -> n_images l = n_images l'.
Proof.
  unfold n_images. induction 1 as [|x l l' _ IH|x y l|l l' l'' _ IH1 _ IH2]; simpl.
  - reflexivity.
  - destruct (is_image_file x); simpl; rewrite IH; reflexivity.
  - destruct (is_image_file x), (is_image_file y); reflexivity.
  - rewrite IH1. exact IH2.
Qed.

Lemma n_images_joined (r : string) (fnames : list string) :
  length (List.filter is_image_file (map (path_join r) fnames)) = n_images fnames.
Proof.
  unfold n_images. induction fnames as [|f l IH]; simpl; [reflexivity|].
  rewrite is_image_file_path_join. destruct (is_image_file f); simpl; rewrite IH; reflexivity.
Qed.

Lemma length_flat_map {A B} (f : A -> list B) (l : list A) :
  length (flat_map f l) = sum_list_with (fun x => length (f x)) l.
Proof.
  induction l as [|x l IH]; simpl; [reflexivity|].
  rewrite length_app, IH. reflexivity.
Qed.

Lemma sum_list_with_flat_map {A B} (g : B -> nat) (f : A -> list B) (l : list A) :
  sum_list_with g (flat_map f l) = sum_list_with (fun x => sum_list_with g (f x)) l.
Proof.
  induction l as [|x l IH]; simpl; [reflexivity|].
  rewrite sum_list_with_app, IH. reflexivity.
Qed.

Lemma sum_list_with_ext {A} (f g : A -> nat) (l : list A) :
  (forall x, f x = g x) -> sum_list_with f l = sum_list_with g l.
Proof.
  intros H. induction l as [|x l IH]; simpl; [reflexivity|].
  rewrite H, IH. reflexivity.
Qed.

(** Induction on directory trees. *)
Lemma fsnode_induction (P : fsnode -> Prop) :
  (forall name, P (File name)) ->
  (forall name children, Forall P children -> P (Dir name children)) ->
  forall n, P n.
Proof.
  intros Hf Hd. fix IH 1. intros [name|name children].
  - apply Hf.
  - apply Hd. induction children as [|c children IHc]; constructor.
    + apply IH.
    + exact IHc.
Qed.

Lemma n_images_file_names (children : list fsnode) :
  n_images (file_names children) = sum_list_with own_image children.
Proof.
  induction children as [|[name|name sub] l IH]; [reflexivity| |exact IH].
  change (file_names (File name :: l)) with (name :: file_names l).
  unfold n_images in *. cbn [List.filter sum_list_with own_image].
  destruct (is_image_file name); cbn [length]; rewrite IH; reflexivity.
Qed.

(** [os.walk] meets every image file of the tree once. *)
Lemma walk_counts (n : fsnode) :
  forall parent,
    (own_image n + sum_list_with (fun rf => n_images (snd rf)) (walk parent n))%nat
    = count_images n.
Proof.
  induction n as [name|name children IH] using fsnode_induction; intros parent.
  - simpl. lia.
  - cbn [walk own_image count_images sum_list_with snd].
    rewrite sum_list_with_flat_map, n_images_file_names.
    generalize (path_join parent name) as top. intros top.
    induction IH as [|c l Hc _ IHl]; simpl; [reflexivity|].
    rewrite <- (Hc top). simpl in IHl. lia.
Qed.

(** [make_dataset] finds as many paths below a class directory as the
    directory holds image files. *)
Lemma length_dir_paths (directory name : string) (children : list fsnode) :
  length (dir_paths directory (Dir name children)) = images_in children.
Proof.
  unfold dir_paths. rewrite length_flat_map.
  rewrite (sorted_perm _ (walk directory (Dir name children))).
  rewrite (sum_list_with_ext _ (fun rf => n_images (snd rf))).
  2:{ intros [r fnames]. rewrite n_images_joined.
      apply (n_images_perm _ _ (sorted_perm _ _)). }
  pose proof (walk_counts (Dir name children) directory) as H.
  cbn [own_image count_images] in H. exact H.
Qed.

Lemma sorted_Bad_Good (entries bad good : list fsnode) :
  Bad_Good entries bad good ->
  sorted String.leb (dir_names entries) = ["Bad"; "Good"].
Proof. intros [->| ->]; vm_compute; reflexivity. Qed.

Lemma class_paths_Bad (directory : string) (entries bad good : list fsnode) :
  Bad_Good entries bad good ->
  class_paths directory entries "Bad" = dir_paths directory (Dir "Bad" bad).
Proof.
  intros [->| ->]; unfold class_paths; cbn [flat_map];
    repeat case_decide; try discriminate; try congruence;
    rewrite ?app_nil_r; reflexivity.
Qed.

Lemma class_paths_Good (directory : string) (entries bad good : list fsnode) :
  Bad_Good entries bad good ->
  class_paths directory entries "Good" = dir_paths directory (Dir "Good" good).
Proof.
  intros [->| ->]; unfold class_paths; cbn [flat_map];
    repeat case_decide; try discriminate; try congruence;
    rewrite ?app_nil_r; reflexivity.
Qed.

(** [ImageFolder] on a split with the classes "Bad" and "Good", each
    with an image: the classes in lexicographic order, one sample per
    image file. *)
Lemma ImageFolder_Bad_Good (pf : platform) (directory : string) (c : Compose)
    (entries bad good : list fsnode) :
  fs pf !! directory = Some entries ->
  Bad_Good entries bad good ->
  (0 < images_in bad)%nat ->
  (0 < images_in good)%nat ->
  exists smp,
    ImageFolder_init pf directory c =
      inr {| root := directory; classes := ["Bad"; "Good"]; samples := smp;
             transform := c |} /\
    length smp = (images_in bad + images_in good)%nat.
Proof.
  intros Hfs Hbg Hb Hg.
  unfold ImageFolder_init, find_classes, make_dataset. rewrite Hfs.
  rewrite (sorted_Bad_Good _ _ _ Hbg).
  cbv [mbind res_bind mret res_ret]; cbv beta iota.
  cbn [imap]. unfold compose.
  rewrite (class_paths_Bad _ _ _ _ Hbg), (class_paths_Good _ _ _ _ Hbg).
  pose proof (length_dir_paths directory "Bad" bad) as Lb.
  pose proof (length_dir_paths directory "Good" good) as Lg.
  destruct (dir_paths directory (Dir "Bad" bad)) as [|pb lb] eqn:Eb;
    [cbn in Lb; lia|].
  destruct (dir_paths directory (Dir "Good" good)) as [|pg lg] eqn:Eg;
    [cbn in Lg; lia|].
  cbn [map existsb orb concat].
  eexists; split; [reflexivity|].
  rewrite app_nil_r, length_app, <- Lb, <- Lg. cbn [length].
  rewrite !length_map. reflexivity.
Qed.

(** C7. With a data directory whose "train" and "val" splits hold
    exactly the class directories "Bad" and "Good", each with an image,
    [load_data] records the class names ["Bad"; "Good"] and, for each
    split, the number of its image files as the dataset size.  (The
    pipelines must have been composed, and the loaders must come up,
    directly or through the fallback.) *)
Theorem load_data_Bad_Good (pf : platform) (st : state) (bs nw : Z)
    (d : gmap string Compose) (ct cv : Compose)
    (etr eva bt gt bv gv : list fsnode) :
  self_data_transforms (self st) = Some d ->
  d !! "train" = Some ct ->
  d !! "val" = Some cv ->
  fs pf !! path_join (self_data_dir (self st)) "train" = Some etr ->
  Bad_Good etr bt gt ->
  (0 < images_in bt)%nat -> (0 < images_in gt)%nat ->
  fs pf !! path_join (self_data_dir (self st)) "val" = Some eva ->
  Bad_Good eva bv gv ->
  (0 < images_in bv)%nat -> (0 < images_in gv)%nat ->
  (forall tr va,
     datasets_open pf st tr va ->
     loaders_come_up pf (heap st) tr va bs nw = true) ->
  exists st',
    load_data pf bs nw st = (inr tt, st') /\
    self_class_names (self st') = Some ["Bad"; "Good"] /\
    self_dataset_sizes (self st') =
      Some (<["val" := (images_in bv + images_in gv)%nat]>
              (<["train" := (images_in bt + images_in gt)%nat]> ∅)).
Proof.
  intros Hd Ht Hv Hft Hbgt Hbt Hgt Hfv Hbgv Hbv Hgv Hup.
  destruct (ImageFolder_Bad_Good pf _ ct _ _ _ Hft Hbgt Hbt Hgt) as (st_ & Htr & Lt).
  destruct (ImageFolder_Bad_Good pf _ cv _ _ _ Hfv Hbgv Hbv Hgv) as (sv_ & Hva & Lv).
  set (tr := {| root := _; samples := st_ |}) in Htr.
  set (va := {| root := _; samples := sv_ |}) in Hva.
  assert (Hopen : datasets_open pf st tr va).
  { exists d, ct, cv. repeat split; assumption. }
  destruct (load_data_records pf st bs nw tr va Hopen (Hup tr va Hopen))
    as (l1 & l2 & evs & Hrun).
  eexists. split; [exact Hrun|].
  cbn. rewrite Lt, Lv. split; reflexivity.
Qed.

(* ------------------------------------------------------------------ *)
(** ** The mean/std estimator *)

Lemma map_res_cons_inv {A B} (f : A -> res B) (x : A) (l : list A) (ys : list B) :
  map_res f (x :: l) = inr ys ->
  exists y ys', f x = inr y /\ map_res f l = inr ys' /\ ys = y :: ys'.
Proof.
  cbn [map_res]. cbv [mbind res_bind mret res_ret].
  destruct (f x) as [|y]; [discriminate|].
  destruct (map_res f l) as [|ys']; [discriminate|].
  intros [= <-]. eauto.
Qed.

Lemma map_res_snoc {A B} (f : A -> res B) (l : list A) (x : A) (ys : list B) (y : B) :
  map_res f l = inr ys -> f x = inr y -> map_res f (l ++ [x]) = inr (ys ++ [y]).
Proof.
  revert ys. induction l as [|a l IH]; intros ys Hl Hx.
  - injection Hl as <-. cbn [app map_res]. cbv [mbind res_bind mret res_ret].
    rewrite Hx. reflexivity.
  - apply map_res_cons_inv in Hl as (b & ys' & Ha & Hl & ->).
    cbn [app map_res]. cbv [mbind res_bind mret res_ret].
    rewrite Ha, (IH ys' Hl Hx). reflexivity.
Qed.

Lemma map_res_bind_inv {A B D} (f : A -> res B) (g : B -> res D) (l : list A)
    (zs : list D) :
  map_res (fun x => y ← f x; g y) l = inr zs ->
  exists ys, map_res f l = inr ys /\ map_res g ys = inr zs.
Proof.
  revert zs. induction l as [|a l IH]; intros zs H.
  - injection H as <-. exists []. split; reflexivity.
  - apply map_res_cons_inv in H as (z & zs' & Ha & Hl & ->).
    destruct (IH zs' Hl) as (ys & Hys & Hzs).
    cbv [mbind res_bind] in Ha. destruct (f a) as [|y] eqn:Efa; [discriminate|].
    exists (y :: ys). cbn [map_res]. cbv [mbind res_bind mret res_ret].
    rewrite Efa, Hys, Ha, Hzs. split; reflexivity.
Qed.

Lemma map_res_length {A B} (f : A -> res B) (l : list A) (ys : list B) :
  map_res f l = inr ys -> length ys = length l.
Proof.
  revert ys. induction l as [|a l IH]; intros ys H.
  - injection H as <-. reflexivity.
  - apply map_res_cons_inv in H as (y & ys' & _ & Hl & ->).
    cbn. rewrite (IH ys' Hl). reflexivity.
Qed.

Lemma Rsum_app (l1 l2 : list R) : Rsum (l1 ++ l2) = (Rsum l1 + Rsum l2)%R.
Proof.
  unfold Rsum. induction l1 as [|x l1 IH]; simpl; [lra|]. rewrite IH. lra.
Qed.

Lemma chan_mean_nil : chan_mean [] = 0%R.
Proof. unfold chan_mean, Rsum. simpl. unfold Rdiv. apply Rmult_0_l. Qed.

Lemma chan_std_nil : chan_std [] = 0%R.
Proof.
  unfold chan_std, Rsum. simpl. unfold Rdiv. rewrite Rmult_0_l. apply sqrt_0.
Qed.

Lemma col_stat_length (f : list R -> R) (C : nat) (imgs : list tensor3) :
  length (col_stat f C imgs) = C.
Proof. unfold col_stat. rewrite length_map. apply length_seq. Qed.

Lemma col_stat_app (f : list R -> R) (C : nat) (l1 l2 : list tensor3) :
  zip_with Rplus (col_stat f C l1) (col_stat f C l2) = col_stat f C (l1 ++ l2).
Proof.
  unfold col_stat. generalize (seq 0 C) as cs.
  induction cs as [|c cs IH]; simpl; [reflexivity|].
  rewrite IH, map_app, Rsum_app. reflexivity.
Qed.

(** [data.mean(2).sum(0)] (or [std]) of a batch is the column sum of
    the per-image statistic. *)
Lemma sum0_batch (f : list R -> R) (C : nat) (batch : list tensor3) :
  f [] = 0%R ->
  sum0 C (map (map f) (map (map (@concat R)) batch)) = col_stat f C batch.
Proof.
  intros Hf. unfold sum0, col_stat.
  apply map_ext. intros c. f_equal. rewrite !map_map.
  apply map_ext. intros img. rewrite map_map.
  rewrite <- Hf at 1.
  change (f []) with ((fun ch => f (concat ch)) []).
  apply (map_nth (fun ch => f (concat ch))).
Qed.

Lemma acc_of_snoc (C : nat) (seen batch : list tensor3) :
  batch <> [] ->
  length (hd [] batch) = C ->
  meanstd_step (acc_of C seen) batch = inr (acc_of C (seen ++ batch)).
Proof.
  intros Hne HC. unfold meanstd_step.
  destruct seen as [|s0 seen].
  - cbn [acc_of app]. rewrite HC.
    rewrite (sum0_batch chan_mean C batch chan_mean_nil).
    rewrite (sum0_batch chan_std C batch chan_std_nil).
    cbn [iadd]. cbv [mbind res_bind mret res_ret].
    destruct batch as [|b0 batch]; [congruence|].
    cbn [acc_of]. do 2 f_equal; [f_equal|].
    + f_equal. rewrite <- (map_id (col_stat chan_mean C (b0 :: batch))) at 2.
      apply map_ext. intros y. apply Rplus_0_l.
    + f_equal. rewrite <- (map_id (col_stat chan_std C (b0 :: batch))) at 2.
      apply map_ext. intros y. apply Rplus_0_l.
    + apply Rplus_0_l.
  - cbn [acc_of]. rewrite HC.
    rewrite (sum0_batch chan_mean C batch chan_mean_nil).
    rewrite (sum0_batch chan_std C batch chan_std_nil).
    cbn [iadd]. rewrite !col_stat_length.
    destruct (decide (C = C)) as [_|]; [|congruence].
    cbv [mbind res_bind mret res_ret].
    rewrite !col_stat_app. rewrite <- plus_INR, <- length_app.
    reflexivity.
Qed.

Section Estimator.

Variables (pf : platform) (h : gmap loc (list stage)) (loader : DataLoader).

(** A batch whose items load and whose tensors have one shape is
    fetched as the list of these tensors. *)
Lemma fetch_tensors (idxs : list nat) (ts : list tensor3) :
  map_res (item_tensor pf h (dataset loader)) idxs = inr ts ->
  forallb (fun t => bool_decide (dims3 t = dims3 (hd [] ts))) ts = true ->
  exists labels, fetch pf h loader idxs = inr (ts, labels).
Proof.
  intros Hts Hdims. unfold item_tensor in Hts.
  apply map_res_bind_inv in Hts as (items & Hitems & Hts).
  unfold fetch, default_collate. rewrite Hitems.
  cbv [mbind res_bind mret res_ret]. cbv beta iota.
  rewrite Hts, Hdims. eauto.
Qed.

Variables (C : nat) (bs : Z).

Lemma stackable_batch (pending : list nat) (tsb : list tensor3) (t : tensor3)
    (rest : list tensor3) (idx : nat) :
  stackable bs pending (tsb ++ t :: rest) ->
  length tsb = length pending ->
  Z.of_nat (length (pending ++ [idx])) = bs ->
  forallb (fun u => bool_decide (dims3 u = dims3 (hd [] (tsb ++ [t])))) (tsb ++ [t])
  = true.
Proof.
  intros [[-> ->]|[d Hd]] Hlen Hbs.
  - destruct tsb; [|discriminate]. cbn. rewrite bool_decide_eq_true_2; reflexivity.
  - assert (Hall : Forall (fun u => dims3 u = d) (tsb ++ [t])).
    { apply Forall_app in Hd as [H1 H2]. apply Forall_cons_1 in H2 as [H2 _].
      apply Forall_app. split; [exact H1|]. constructor; [exact H2|constructor]. }
    assert (Hhd : dims3 (hd [] (tsb ++ [t])) = d).
    { destruct tsb as [|u tsb]; cbn in *; apply Forall_cons_1 in Hall as [Hu _];
        exact Hu. }
    rewrite Hhd. apply forallb_forall. intros u Hu.
    apply bool_decide_eq_true_2.
    rewrite Forall_forall in Hall. apply Hall. apply list_elem_of_In. exact Hu.
Qed.

(** The loop of [get_meanstd] over the batches of [idxs]: whatever the
    batch size, the accumulators end as the sums over all images. *)
Lemma meanstd_loop_sums (idxs : list nat) :
  forall (pending : list nat) (tsb ts seen : list tensor3),
    map_res (item_tensor pf h (dataset loader)) pending = inr tsb ->
    map_res (item_tensor pf h (dataset loader)) idxs = inr ts ->
    Forall (fun t => length t = C) (tsb ++ ts) ->
    stackable bs pending (tsb ++ ts) ->
    meanstd_loop pf h loader (batch_sampler bs idxs pending) (acc_of C seen)
    = inr (acc_of C (seen ++ tsb ++ ts)).
Proof.
  induction idxs as [|idx idxs IH]; intros pending tsb ts seen Hp Hi HC Hst.
  - injection Hi as <-. rewrite app_nil_r in *.
    pose proof (map_res_length _ _ _ Hp) as Hlen.
    destruct pending as [|p pending].
    + destruct tsb; [|discriminate]. rewrite app_nil_r. reflexivity.
    + cbn [batch_sampler meanstd_loop].
      destruct Hst as [[_ Hnil]|[d Hd]]; [discriminate|].
      destruct (fetch_tensors (p :: pending) tsb Hp) as [labels Hf].
      { apply forallb_forall. intros u Hu. apply bool_decide_eq_true_2.
        rewrite Forall_forall in Hd.
        rewrite (Hd u) by (apply list_elem_of_In; exact Hu).
        destruct tsb as [|u0 tsb]; [destruct Hu|].
        symmetry. apply Hd. cbn. left. }
      rewrite Hf. cbv [mbind res_bind fst]. cbv beta iota.
      rewrite acc_of_snoc.
      * reflexivity.
      * destruct tsb; [discriminate|]. discriminate.
      * destruct tsb as [|u0 tsb]; [discriminate|].
        apply Forall_cons_1 in HC as [HC _]. exact HC.
  - apply map_res_cons_inv in Hi as (t & ts' & Ht & Hi & ->).
    pose proof (map_res_length _ _ _ Hp) as Hlen.
    pose proof (map_res_snoc _ _ _ _ _ Hp Ht) as Hp'.
    cbn [batch_sampler].
    destruct (Z.of_nat (length (pending ++ [idx])) =? bs) eqn:Hfull.
    + apply Z.eqb_eq in Hfull.
      cbn [meanstd_loop].
      destruct (fetch_tensors (pending ++ [idx]) (tsb ++ [t]) Hp') as [labels Hf].
      { apply (stackable_batch pending tsb t ts' idx); assumption. }
      rewrite Hf. cbv [mbind res_bind fst]. cbv beta iota.
      rewrite acc_of_snoc.
      * rewrite (IH [] [] ts' (seen ++ tsb ++ [t])); try assumption.
        -- cbn [app]. rewrite <- !app_assoc. reflexivity.
        -- reflexivity.
        -- cbn [app]. apply Forall_app in HC as [_ HC].
           apply Forall_cons_1 in HC as [_ HC]. exact HC.
        -- destruct Hst as [[Hb _]|[d Hd]]; [left; split; [exact Hb|reflexivity]|].
           right. exists d. cbn [app]. apply Forall_app in Hd as [_ Hd].
           apply Forall_cons_1 in Hd as [_ Hd]. exact Hd.
      * destruct tsb; discriminate.
      * destruct tsb as [|u0 tsb]; cbn [app hd] in *;
          apply Forall_cons_1 in HC as [HC _]; exact HC.
    + apply Z.eqb_neq in Hfull.
      rewrite (IH (pending ++ [idx]) (tsb ++ [t]) ts' seen); try assumption.
      * rewrite <- !app_assoc. reflexivity.
      * rewrite <- app_assoc. exact HC.
      * destruct Hst as [[Hb Hnil]|[d Hd]].
        -- rewrite Hb, Hnil in Hfull. cbn in Hfull. lia.
        -- right. exists d. rewrite <- app_assoc. exact Hd.
Qed.

End Estimator.

(** A dataset [ImageFolder] accepts has a sample. *)
Lemma ImageFolder_init_nonempty (pf : platform) (directory : string) (c : Compose)
    (ds : ImageFolder) :
  ImageFolder_init pf directory c = inr ds -> samples ds <> [].
Proof.
  unfold ImageFolder_init, find_classes, make_dataset.
  destruct (fs pf !! directory) as [entries|]; [|discriminate].
  destruct (sorted String.leb (dir_names entries)) as [|c0 cs]; [discriminate|].
  cbv [mbind res_bind mret res_ret]; cbv beta iota.
  cbn [imap existsb concat].
  destruct (map (fun p => (p, 0%nat)) (class_paths directory entries c0)) as [|s0 l0];
    [discriminate|].
  cbn [orb]. destruct (existsb _ _); [discriminate|].
  intros [= <-]. cbn [samples app]. discriminate.
Qed.

(** [get_meanstd] up to the end of its loop: it leaves the caller's
    transform list alone (the copy is a new list), constructs one
    loader, and its accumulators hold the sums over all images. *)
Lemma get_meanstd_sums_run (pf : platform) (st : state) (transform : loc) (bs : Z)
    (split : string) (tf : list stage) (ds : ImageFolder) (loader : DataLoader)
    (imgs : list tensor3) (C : nat) :
  heap st !! transform = Some tf ->
  ImageFolder_init pf (path_join (self_data_dir (self st)) split)
    {| transforms := fresh (dom (heap st)) |} = inr ds ->
  DataLoader_new pf ds bs false 0 = inr loader ->
  dataset_tensors pf (<[fresh (dom (heap st)) := tf ++ [ToTensor]]> (heap st)) ds
    = inr imgs ->
  Forall (fun t => length t = C) imgs ->
  stackable bs [] imgs ->
  get_meanstd_sums pf transform bs split st =
    (inr (acc_of C imgs),
     {| heap := <[fresh (dom (heap st)) := tf ++ [ToTensor]]> (heap st);
        self := self st;
        events := events st ++ [EvDataLoader (root ds) bs false 0] |}).
Proof.
  intros Htf Hds Hdl Himgs HC Hst.
  unfold get_meanstd_sums.
  repeat (progress (mstep; rewrite ?Htf, ?Hds, ?Hdl)).
  apply DataLoader_new_inr in Hdl as [-> _].
  unfold loader_iter, batch_indices, sampler. cbn [num_workers shuffle batch_size dataset].
  cbv [mbind res_bind mret res_ret]; cbv beta iota.
  change (0 <? 0) with false. cbv iota.
  rewrite (meanstd_loop_sums pf _ _ C bs _ [] [] imgs []);
    try assumption; reflexivity.
Qed.

Lemma batch_sampler_one (idxs : list nat) :
  batch_sampler 1 idxs [] = map (fun i => [i]) idxs.
Proof.
  induction idxs as [|i idxs IH]; [reflexivity|].
  cbn [batch_sampler app length]. change (Z.of_nat 1 =? 1) with true.
  cbv iota. rewrite IH. reflexivity.
Qed.

Lemma chan_std_pair (v : R) : chan_std [v; v] = 0%R.
Proof.
  unfold chan_std, chan_mean, Rsum. simpl.
  replace ((v - (v + (v + 0)) / (1 + 1)) * (v - (v + (v + 0)) / (1 + 1)) +
           ((v - (v + (v + 0)) / (1 + 1)) * (v - (v + (v + 0)) / (1 + 1)) + 0))%R
    with 0%R by field.
  unfold Rdiv. rewrite Rmult_0_l. apply sqrt_0.
Qed.

Lemma chan_std_black_white : (0 < chan_std [0; 0; 1; 1])%R.
Proof.
  unfold chan_std, chan_mean, Rsum. simpl.
  apply sqrt_lt_R0.
  match goal with |- (0 < ?x)%R => replace x with (1 / 3)%R by field end.
  lra.
Qed.

Lemma pixel_std_pair (v : R) : pixel_std [v; v] = 0%R.
Proof. exact (chan_std_pair v). Qed.

(** The mean of the per-image standard deviations is not the standard
    deviation of the dataset. *)
Lemma image_std_is_not_dataset_std :
  mean_over_images pixel_std black_white 0 <> pixel_std (all_pixels 0 black_white).
Proof.
  unfold mean_over_images, all_pixels, channel_pixels, black_white.
  cbn [map nth concat app length].
  rewrite !pixel_std_pair. intros H.
  pose proof chan_std_black_white as Hpos.
  change (chan_std [0; 0; 1; 1]%R) with (pixel_std [0; 0; 1; 1]%R) in Hpos.
  rewrite <- H in Hpos. unfold total in Hpos. simpl in Hpos. lra.
Qed.

(** The code's per-image statistics are the specification's. *)
Lemma image_stat_mean_nth (f g : list R -> R) (imgs : list tensor3) (C c : nat) :
  (forall px, f px = g px) ->
  length (hd [] imgs) = C ->
  (c < C)%nat ->
  nth c (image_stat_mean f imgs) 0%R = mean_over_images g imgs c.
Proof.
  intros Hfg HC Hc. unfold image_stat_mean. rewrite HC.
  rewrite (nth_map_seq _ C c 0%R Hc).
  unfold mean_over_images, channel_pixels. f_equal.
  change (total ?l) with (Rsum l). f_equal.
  apply map_ext. intros img. apply Hfg.
Qed.

(** C1. When the split opens and its images load (with one channel
    count, at least two pixels per channel, and of one shape unless the
    batch size is 1, as stacking needs), [get_meanstd] returns one mean
    and one std per channel: the mean over the images of the per-image
    pixel mean and the mean over the images of the per-image (unbiased)
    pixel standard deviation, whatever the batch size.  The copy of the
    transform list is a new list: the caller's list is unchanged.  This
    is not the dataset-wide statistic: on a black and a white image the
    mean of the per-image stds differs from the std of all pixels.
    (Over the reals: rounding is not modelled.) *)
Theorem get_meanstd_mean_of_image_stats (pf : platform) (st : state)
    (transform : loc) (bs : Z) (split : string) (tf : list stage)
    (ds : ImageFolder) (loader : DataLoader) (imgs : list tensor3) (C : nat) :
  heap st !! transform = Some tf ->
  ImageFolder_init pf (path_join (self_data_dir (self st)) split)
    {| transforms := fresh (dom (heap st)) |} = inr ds ->
  DataLoader_new pf ds bs false 0 = inr loader ->
  dataset_tensors pf (<[fresh (dom (heap st)) := tf ++ [ToTensor]]> (heap st)) ds
    = inr imgs ->
  Forall (fun t => length t = C) imgs ->
  two_pixels imgs ->
  bs = 1 \/ (exists d, Forall (fun t => dims3 t = d) imgs) ->
  (exists means stds st',
     get_meanstd pf transform bs split st =
       (inr (PyTensor means, PyTensor stds), st') /\
     length means = C /\
     length stds = C /\
     (forall c, (c < C)%nat ->
        nth c means 0%R = mean_over_images pixel_mean imgs c /\
        nth c stds 0%R = mean_over_images pixel_std imgs c) /\
     heap st' !! transform = Some tf) /\
  mean_over_images pixel_std black_white 0 <> pixel_std (all_pixels 0 black_white).
Proof.
  intros Htf Hds Hdl Himgs HC _ Hshape. split; [|exact image_std_is_not_dataset_std].
  assert (Hst : stackable bs [] imgs).
  { destruct Hshape as [Hb|Hd]; [left; split; [exact Hb|reflexivity]|right; exact Hd]. }
  pose proof (get_meanstd_sums_run pf st transform bs split tf ds loader imgs C
                Htf Hds Hdl Himgs HC Hst) as Hrun.
  assert (Hne : imgs <> []).
  { pose proof (ImageFolder_init_nonempty _ _ _ _ Hds) as Hs.
    pose proof (map_res_length _ _ _ Himgs) as Hl. rewrite length_seq in Hl.
    destruct imgs; [|discriminate]. destruct (samples ds); [congruence|discriminate]. }
  destruct imgs as [|i0 imgs]; [congruence|].
  pose proof HC as HC'. apply Forall_cons_1 in HC' as [HC0 _].
  exists (image_stat_mean chan_mean (i0 :: imgs)),
         (image_stat_mean chan_std (i0 :: imgs)).
  eexists. split; [|split; [|split; [|split]]].
  - unfold get_meanstd. cbv [mbind M_bind]. rewrite Hrun. cbn [acc_of].
    cbv [lift idiv mret res_ret M_ret]. cbv beta iota.
    unfold image_stat_mean, col_stat. rewrite !map_map.
    cbn [hd]. rewrite HC0. reflexivity.
  - unfold image_stat_mean. rewrite length_map, length_seq. exact HC0.
  - unfold image_stat_mean. rewrite length_map, length_seq. exact HC0.
  - intros c Hc. split.
    + apply (image_stat_mean_nth chan_mean pixel_mean _ C c); auto.
    + apply (image_stat_mean_nth chan_std pixel_std _ C c); auto.
  - cbn [heap]. rewrite lookup_insert_ne; [exact Htf|].
    intros Heq. pose proof (is_fresh (dom (heap st))) as Hfresh.
    rewrite Heq in Hfresh. apply Hfresh. apply elem_of_dom. eauto.
Qed.

(** C8. With batch size 1 on a split of N images (which load, with one
    channel count), the non-shuffling loader of [get_meanstd] yields
    exactly N batches, the i-th holding image i alone, and the image
    count the loop ends with is N. *)
Theorem get_meanstd_batch_size_one (pf : platform) (st : state)
    (transform : loc) (split : string) (tf : list stage)
    (ds : ImageFolder) (loader : DataLoader) (imgs : list tensor3) (C : nat) :
  heap st !! transform = Some tf ->
  ImageFolder_init pf (path_join (self_data_dir (self st)) split)
    {| transforms := fresh (dom (heap st)) |} = inr ds ->
  DataLoader_new pf ds 1 false 0 = inr loader ->
  dataset_tensors pf (<[fresh (dom (heap st)) := tf ++ [ToTensor]]> (heap st)) ds
    = inr imgs ->
  Forall (fun t => length t = C) imgs ->
  let N := length (samples ds) in
  batch_indices pf loader = map (fun i => [i]) (seq 0 N) /\
  length (batch_indices pf loader) = N /\
  exists mean_sum std_sum st',
    get_meanstd_sums pf transform 1 split st =
      (inr (mean_sum, std_sum, INR N), st').
Proof.
  intros Htf Hds Hdl Himgs HC N.
  assert (Hbatches : batch_indices pf loader = map (fun i => [i]) (seq 0 N)).
  { destruct (DataLoader_new_inr _ _ _ _ _ _ Hdl) as [-> _].
    unfold batch_indices, sampler. cbn [batch_size shuffle dataset].
    apply batch_sampler_one. }
  split; [exact Hbatches|]. split.
  { rewrite Hbatches, length_map. apply length_seq. }
  assert (Hst : stackable 1 [] imgs) by (left; split; reflexivity).
  pose proof (get_meanstd_sums_run pf st transform 1 split tf ds loader imgs C
                Htf Hds Hdl Himgs HC Hst) as Hrun.
  pose proof (map_res_length _ _ _ Himgs) as Hl. rewrite length_seq in Hl.
  fold N in Hl.
  assert (Hne : imgs <> []).
  { pose proof (ImageFolder_init_nonempty _ _ _ _ Hds) as Hs.
    destruct imgs; [|discriminate]. unfold N in Hl.
    destruct (samples ds); [congruence|discriminate]. }
  destruct imgs as [|i0 imgs]; [congruence|].
  cbn [acc_of] in Hrun. rewrite Hl in Hrun. eauto.
Qed.

(* ------------------------------------------------------------------ *)
(** ** A small session *)

Lemma demo_datasets_open (pf : platform) :
  fs pf = <["data/val" := demo_split]> (<["data/train" := demo_split]> ∅) ->
  datasets_open pf composed
    (demo_dataset "train" 1%positive) (demo_dataset "val" 2%positive).
Proof.
  intros Hfs. exists demo_pipelines, {| transforms := 1%positive |},
    {| transforms := 2%positive |}.
  unfold ImageFolder_init. rewrite Hfs.
  repeat split; vm_compute; reflexivity.
Qed.

Lemma load_data_falls_back_once_witness :
  exists st' loaders sizes,
    load_data no_worker_loaders 4 2 composed = (inr tt, st') /\
    events st' =
      [EvDataLoader "data/train" 4 true 2;
       EvPrint warning;
       EvDataLoader "data/train" 4 true 0;
       EvDataLoader "data/val" 4 true 0] /\
    self_dataloaders (self st') = Some loaders /\
    loaders !! "train" = Some (demo_loader (demo_dataset "train" 1%positive) 4 true 0) /\
    loaders !! "val" = Some (demo_loader (demo_dataset "val" 2%positive) 4 true 0) /\
    self_dataset_sizes (self st') = Some sizes /\
    sizes !! "train" = Some 2%nat /\
    sizes !! "val" = Some 2%nat /\
    self_class_names (self st') = Some ["Bad"; "Good"].
Proof.
  destruct (load_data_falls_back_once no_worker_loaders composed 4 2
              (demo_dataset "train" 1%positive) (demo_dataset "val" 2%positive)
              RuntimeError) as [Hok _].
  - apply demo_datasets_open. reflexivity.
  - vm_compute. reflexivity.
  - reflexivity.
  - destruct (Hok (demo_loader (demo_dataset "train" 1%positive) 4 true 0)
                  (demo_loader (demo_dataset "val" 2%positive) 4 true 0))
      as (_ & _ & st' & loaders & sizes & Hrun & _ & Hev & Hl & Hlt & Hlv
          & Hsz & Hst & Hsv & Hcn).
    + vm_compute. reflexivity.
    + exists st', loaders, sizes.
      split; [exact Hrun|]. split; [exact Hev|]. split; [exact Hl|].
      split; [exact Hlt|]. split; [exact Hlv|]. split; [exact Hsz|].
      split; [exact Hst|]. split; [exact Hsv|]. exact Hcn.
Defined.

Lemma load_data_guard_covers_preview_witness :
  load_data no_worker_start 4 2 composed =
    (inr tt,
     loaded composed (demo_dataset "train" 1%positive) (demo_dataset "val" 2%positive)
       (demo_loader (demo_dataset "train" 1%positive) 4 true 0)
       (demo_loader (demo_dataset "val" 2%positive) 4 true 0)
       [EvDataLoader "data/train" 4 true 2;
        EvDataLoader "data/val" 4 true 2;
        EvNextBatch "data/train";
        EvPrint warning;
        EvDataLoader "data/train" 4 true 0;
        EvDataLoader "data/val" 4 true 0]) /\
  fst (load_data no_worker_start 0 0 composed) = inl ValueError.
Proof.
  destruct (load_data_guard_covers_preview no_worker_start composed 4 2
              (demo_dataset "train" 1%positive) (demo_dataset "val" 2%positive))
    as [Hrt _].
  { apply demo_datasets_open. reflexivity. }
  destruct (load_data_guard_covers_preview no_worker_start composed 0 0
              (demo_dataset "train" 1%positive) (demo_dataset "val" 2%positive))
    as [_ Hother].
  { apply demo_datasets_open. reflexivity. }
  split.
  - apply (Hrt (demo_loader (demo_dataset "train" 1%positive) 4 true 2)
               (demo_loader (demo_dataset "val" 2%positive) 4 true 2)
               RuntimeError).
    + vm_compute. reflexivity.
    + vm_compute. reflexivity.
    + reflexivity.
    + vm_compute. reflexivity.
  - destruct (Hother ValueError) as [Hrun _].
    + vm_compute. reflexivity.
    + reflexivity.
    + rewrite Hrun. reflexivity.
Defined.

Lemma load_data_Bad_Good_witness :
  exists st',
    load_data no_worker_loaders 4 2 composed = (inr tt, st') /\
    self_class_names (self st') = Some ["Bad"; "Good"] /\
    self_dataset_sizes (self st') =
      Some (<["val" := 2%nat]> (<["train" := 2%nat]> ∅)).
Proof.
  apply (load_data_Bad_Good no_worker_loaders composed 4 2 demo_pipelines
           {| transforms := 1%positive |} {| transforms := 2%positive |}
           demo_split demo_split
           [File "b1.JPG"] [File "g1.png"; File "notes.txt"]
           [File "b1.JPG"] [File "g1.png"; File "notes.txt"]).
  - vm_compute. reflexivity.
  - vm_compute. reflexivity.
  - vm_compute. reflexivity.
  - vm_compute. reflexivity.
  - right. reflexivity.
  - vm_compute. lia.
  - vm_compute. lia.
  - vm_compute. reflexivity.
  - right. reflexivity.
  - vm_compute. lia.
  - vm_compute. lia.
  - intros tr va (d & ct & cv & Hd & Ht & Hv & Htr & Hva).
    vm_compute in Hd. injection Hd as <-.
    vm_compute in Ht. injection Ht as <-.
    vm_compute in Hv. injection Hv as <-.
    vm_compute in Htr. injection Htr as <-.
    vm_compute in Hva. injection Hva as <-.
    vm_compute. reflexivity.
Defined.

Lemma get_meanstd_mean_of_image_stats_witness :
  exists means stds st',
    get_meanstd no_worker_loaders 1%positive 2 "train" two_lists =
      (inr (PyTensor means, PyTensor stds), st') /\
    length means = 3%nat /\
    length stds = 3%nat /\
    forall c, (c < 3)%nat ->
      nth c means 0%R = mean_over_images pixel_mean demo_tensors c /\
      nth c stds 0%R = mean_over_images pixel_std demo_tensors c.
Proof.
  destruct (get_meanstd_mean_of_image_stats no_worker_loaders two_lists
              1%positive 2 "train" [AFMcrop]
              (demo_dataset "train" 3%positive)
              (demo_loader (demo_dataset "train" 3%positive) 2 false 0)
              demo_tensors 3%nat)
    as [(means & stds & st' & Hrun & Hlm & Hls & Hval & _) _].
  - vm_compute. reflexivity.
  - vm_compute. reflexivity.
  - vm_compute. reflexivity.
  - vm_compute. reflexivity.
  - repeat constructor.
  - unfold two_pixels, demo_tensors. repeat constructor.
  - right. exists (3, 1, 2)%nat. repeat constructor.
  - exists means, stds, st'. auto.
Defined.

Lemma get_meanstd_batch_size_one_witness :
  batch_indices no_worker_loaders
    (demo_loader (demo_dataset "train" 3%positive) 1 false 0) = [[0]; [1]]%nat /\
  exists mean_sum std_sum st',
    get_meanstd_sums no_worker_loaders 1%positive 1 "train" two_lists =
      (inr (mean_sum, std_sum, INR 2), st').
Proof.
  destruct (get_meanstd_batch_size_one no_worker_loaders two_lists
              1%positive "train" [AFMcrop]
              (demo_dataset "train" 3%positive)
              (demo_loader (demo_dataset "train" 3%positive) 1 false 0)
              demo_tensors 3%nat) as (Hb & _ & Hrun).
  - vm_compute. reflexivity.
  - vm_compute. reflexivity.
  - vm_compute. reflexivity.
  - vm_compute. reflexivity.
  - repeat constructor.
  - split; [exact Hb | exact Hrun].
Defined.


(* ------------------------------------------------------------------ *)
(** ** More on the scale-bar crop *)

Lemma In_zrange (n w : Z) : 0 <= w < n -> In w (zrange n).
Proof.
  intros Hw. unfold zrange. apply in_map_iff. exists (Z.to_nat w). split.
  - apply Z2Nat.id. lia.
  - apply in_seq. lia.
Qed.

Lemma AFMcrop_new_w_sound_upto_4096 :
  forallb new_w_sound (zrange 4097) = true.
Proof. vm_compute. reflexivity. Qed.

(** X1. On every image up to 4096 pixels wide the crop succeeds: it
    keeps the height, the bands and the pixels of the left columns, and
    its width is [floor(7w/10)] or one column less, within the image. *)
Theorem AFMcrop_keeps_left_columns (img : pil_image) :
  0 <= img_width img <= 4096 ->
  exists out,
    AFMcrop_call img = inr out /\
    7 * img_width img / 10 - 1 <= img_width out <= 7 * img_width img / 10 /\
    0 <= img_width out <= img_width img /\
    img_height out = img_height img /\
    img_bands out = img_bands img /\
    forall x y b, img_px out x y b = img_px img x y b.
Proof.
  intros Hw.
  pose proof AFMcrop_new_w_sound_upto_4096 as Hall.
  rewrite forallb_forall in Hall.
  specialize (Hall (img_width img) (In_zrange 4097 (img_width img) ltac:(lia))).
  unfold new_w_sound in Hall.
  destruct (AFMcrop_new_w (img_width img)) as [|n] eqn:Hn; [discriminate|].
  destruct (AFMcrop_call_crop img n Hn) as (out & Hcall & Hwid & Hh & Hb & Hpx).
  exists out. rewrite Hwid.
  apply andb_prop in Hall as [Hrange Hval].
  apply andb_prop in Hrange as [H0 H1].
  apply Z.leb_le in H0, H1.
  apply orb_prop in Hval as [Hv|Hv]; apply Z.eqb_eq in Hv;
    repeat split; try assumption; lia.
Qed.

Lemma AFMcrop_keeps_left_columns_witness :
  exists out,
    AFMcrop_call demo_white = inr out /\
    img_width out = 2 /\ img_height out = 1.
Proof.
  destruct (AFMcrop_keeps_left_columns demo_white) as (out & Hc & Hw & _ & Hh & _).
  - cbn. lia.
  - exists out. split; [exact Hc|]. split; [|exact Hh].
    vm_compute in Hc. injection Hc as <-. reflexivity.
Defined.

(* ------------------------------------------------------------------ *)
(** ** More on the pipeline builder *)

(** X2. When [transforms_train] is not a list, [add_transforms] raises
    [AttributeError]; [mean] and [std] are stored by then, no list is
    touched and no pipeline is composed. *)
Theorem add_transforms_train_not_a_list (st : state) (lt lv : loc) (mean std : vec) :
  heap st !! lt = None ->
  add_transforms lt lv mean std st =
    (inl AttributeError,
     {| heap := heap st;
        self := with_std std (with_mean mean (self st));
        events := events st |}).
Proof.
  intros Ht. unfold add_transforms, list_extend.
  repeat (progress (mstep; rewrite ?Ht)). reflexivity.
Qed.

Lemma add_transforms_train_not_a_list_witness :
  fst (add_transforms 7%positive 1%positive [0.5%R] [0.25%R] two_lists) =
    inl AttributeError /\
  pipeline (snd (add_transforms 7%positive 1%positive [0.5%R] [0.25%R] two_lists))
    "train" = None.
Proof.
  rewrite (add_transforms_train_not_a_list two_lists 7%positive 1%positive
             [0.5%R] [0.25%R]).
  - split; reflexivity.
  - vm_compute. reflexivity.
Defined.

(** X3. When only [transforms_val] is not a list, [add_transforms]
    raises [AttributeError] after it has extended [transforms_train]:
    the caller's train list keeps the two appended stages, and no
    pipeline is composed. *)
Theorem add_transforms_val_not_a_list (st : state) (lt lv : loc) (mean std : vec)
    (xt : list stage) :
  heap st !! lt = Some xt ->
  heap st !! lv = None ->
  add_transforms lt lv mean std st =
    (inl AttributeError,
     {| heap := <[lt := xt ++ [ToTensor; Normalize mean std]]> (heap st);
        self := with_std std (with_mean mean (self st));
        events := events st |}).
Proof.
  intros Ht Hv.
  assert (Hne : lt <> lv) by (intros ->; congruence).
  unfold add_transforms, list_extend.
  repeat (progress (mstep; rewrite ?Ht)).
  rewrite lookup_insert_ne by exact Hne. rewrite Hv. reflexivity.
Qed.

Lemma add_transforms_val_not_a_list_witness :
  exists st',
    add_transforms 1%positive 7%positive [0.5%R] [0.25%R] two_lists =
      (inl AttributeError, st') /\
    heap st' !! 1%positive = Some [AFMcrop; ToTensor; Normalize [0.5%R] [0.25%R]] /\
    self_data_transforms (self st') = None.
Proof.
  eexists. split.
  - apply (add_transforms_val_not_a_list two_lists 1%positive 7%positive
             [0.5%R] [0.25%R] [AFMcrop]); vm_compute; reflexivity.
  - split; [|reflexivity]. cbn [heap]. rewrite lookup_insert_eq. reflexivity.
Defined.

Lemma M_bind_inr {A B} (m : M A) (f : A -> M B) (st st1 : state) (x : A) :
  m st = (inr x, st1) -> (m ≫= f) st = f x st1.
Proof. intros H. cbv [mbind M_bind]. rewrite H. reflexivity. Qed.

(** X4. Calling [add_transforms] a second time on the same two lists
    extends them again: each pipeline then ends with the stages of both
    calls, the first call's [Normalize] before the second call's
    [ToTensor], and the stored statistics are those of the second
    call. *)
Theorem add_transforms_twice (st : state) (lt lv : loc) (m1 s1 m2 s2 : vec)
    (xt xv : list stage) :
  heap st !! lt = Some xt ->
  heap st !! lv = Some xv ->
  lt <> lv ->
  exists st',
    (add_transforms lt lv m1 s1;; add_transforms lt lv m2 s2) st = (inr tt, st') /\
    pipeline st' "train" =
      Some (xt ++ [ToTensor; Normalize m1 s1; ToTensor; Normalize m2 s2]) /\
    pipeline st' "val" =
      Some (xv ++ [ToTensor; Normalize m1 s1; ToTensor; Normalize m2 s2]) /\
    self_mean (self st') = Some m2 /\
    self_std (self st') = Some s2.
Proof.
  intros Ht Hv Hne.
  eexists. split.
  - erewrite M_bind_inr.
    2:{ apply (add_transforms_run m1 s1 st lt lv xt xv); [exact Ht|].
        rewrite lookup_insert_ne by exact Hne. exact Hv. }
    apply add_transforms_run; cbn [heap].
    + rewrite lookup_insert_ne by congruence. apply lookup_insert_eq.
    + rewrite lookup_insert_ne by exact Hne. apply lookup_insert_eq.
  - rewrite pipeline_after_train, pipeline_after_val.
    rewrite lookup_insert_eq.
    rewrite lookup_insert_ne by congruence. rewrite lookup_insert_eq.
    rewrite <- !app_assoc. repeat split.
Qed.

Lemma add_transforms_twice_witness :
  exists st',
    (add_transforms 1%positive 2%positive [0.5%R] [0.25%R];;
     add_transforms 1%positive 2%positive [0.4%R] [0.2%R]) two_lists = (inr tt, st') /\
    pipeline st' "val" =
      Some [ToTensor; Normalize [0.5%R] [0.25%R]; ToTensor; Normalize [0.4%R] [0.2%R]].
Proof.
  destruct (add_transforms_twice two_lists 1%positive 2%positive
              [0.5%R] [0.25%R] [0.4%R] [0.2%R] [AFMcrop] [])
    as (st' & Hrun & _ & Hval & _).
  - vm_compute. reflexivity.
  - vm_compute. reflexivity.
  - discriminate.
  - exists st'. split; [exact Hrun | exact Hval].
Defined.

(** X5. A composed pipeline is the caller's list, not a copy of it:
    stages the caller appends to the list after [add_transforms] are
    stages of the pipeline. *)
Theorem pipeline_follows_caller_list (st : state) (lt lv : loc) (mean std : vec)
    (xt xv later : list stage) :
  heap st !! lt = Some xt ->
  heap st !! lv = Some xv ->
  lt <> lv ->
  exists st',
    (add_transforms lt lv mean std;; list_extend lt later) st = (inr tt, st') /\
    pipeline st' "train" = Some (xt ++ [ToTensor; Normalize mean std] ++ later) /\
    pipeline st' "val" = Some (xv ++ [ToTensor; Normalize mean std]).
Proof.
  intros Ht Hv Hne.
  eexists. split.
  - erewrite M_bind_inr.
    2:{ apply (add_transforms_run mean std st lt lv xt xv); [exact Ht|].
        rewrite lookup_insert_ne by exact Hne. exact Hv. }
    unfold list_extend. mstep.
    rewrite lookup_insert_ne by congruence. rewrite lookup_insert_eq.
    reflexivity.
  - unfold pipeline.
    cbn [self heap self_data_transforms with_data_transforms mbind option_bind].
    mlookup. cbn [mbind option_bind transforms].
    rewrite lookup_insert_eq.
    rewrite lookup_insert_ne by exact Hne. rewrite lookup_insert_eq.
    rewrite <- app_assoc. split; reflexivity.
Qed.

Lemma pipeline_follows_caller_list_witness :
  exists st',
    (add_transforms 1%positive 2%positive [0.5%R] [0.25%R];;
     list_extend 1%positive [AFMcrop]) two_lists = (inr tt, st') /\
    pipeline st' "train" =
      Some [AFMcrop; ToTensor; Normalize [0.5%R] [0.25%R]; AFMcrop].
Proof.
  destruct (pipeline_follows_caller_list two_lists 1%positive 2%positive
              [0.5%R] [0.25%R] [AFMcrop] [] [AFMcrop])
    as (st' & Hrun & Htr & _).
  - vm_compute. reflexivity.
  - vm_compute. reflexivity.
  - discriminate.
  - exists st'. split; [exact Hrun | exact Htr].
Defined.

Lemma Compose_call_app (a b : list stage) (v : value) :
  Compose_call (a ++ b) v = (v' ← Compose_call a v; Compose_call b v').
Proof.
  revert v. induction a as [|s a IH]; intros v; [reflexivity|].
  cbn [app Compose_call]. cbv [mbind res_bind].
  destruct (stage_call s v) as [e|v']; [reflexivity|]. apply IH.
Qed.

(** A pipeline whose last stages are [ToTensor; Normalize; ToTensor]
    raises on every input: the second [ToTensor] is handed a tensor. *)
Lemma Compose_call_second_ToTensor (xs rest : list stage) (mean std : vec) (v : value) :
  exists e,
    Compose_call (xs ++ [ToTensor; Normalize mean std; ToTensor] ++ rest) v = inl e.
Proof.
  rewrite Compose_call_app. cbv [mbind res_bind].
  destruct (Compose_call xs v) as [e|v']; [eauto|].
  cbn [app Compose_call]. cbv [mbind res_bind].
  destruct v' as [img|t]; cbn [stage_call]; [|eexists; reflexivity].
  cbv [mret res_ret mbind res_bind].
  destruct (F_normalize (to_tensor img) mean std) as [e|t']; [eauto|].
  eexists; reflexivity.
Qed.

(** X6. After one list was passed for both parameters of
    [add_transforms], neither pipeline can produce a tensor: applied to
    any input, it raises. *)
Theorem shared_list_pipeline_raises (st : state) (l : loc) (mean std : vec)
    (xs : list stage) :
  heap st !! l = Some xs ->
  exists st',
    add_transforms l l mean std st = (inr tt, st') /\
    forall split, split = "train" \/ split = "val" ->
      exists stages,
        pipeline st' split = Some stages /\
        forall v, exists e, Compose_call stages v = inl e.
Proof.
  intros Hl. eexists. split.
  - apply (add_transforms_run mean std st l l xs
             (xs ++ [ToTensor; Normalize mean std])); [exact Hl|].
    apply lookup_insert_eq.
  - intros sp [->| ->];
      rewrite ?pipeline_after_train, ?pipeline_after_val;
      rewrite lookup_insert_eq; eexists; (split; [reflexivity|]);
      intros v; rewrite <- app_assoc;
      apply (Compose_call_second_ToTensor xs [Normalize mean std] mean std v).
Qed.

Lemma shared_list_pipeline_raises_witness :
  exists st',
    add_transforms 2%positive 2%positive [0.5%R] [0.25%R] two_lists = (inr tt, st') /\
    exists stages,
      pipeline st' "train" = Some stages /\
      exists e, Compose_call stages (VImage demo_white) = inl e.
Proof.
  destruct (shared_list_pipeline_raises two_lists 2%positive [0.5%R] [0.25%R] [])
    as (st' & Hrun & Hall).
  - vm_compute. reflexivity.
  - exists st'. split; [exact Hrun|].
    destruct (Hall "train" (or_introl eq_refl)) as (stages & Hp & Hraise).
    exists stages. split; [exact Hp | apply Hraise].
Defined.

(* ------------------------------------------------------------------ *)
(** ** More on loading *)

(** X7. [load_data] on an object whose pipelines were never composed
    raises [AttributeError] and changes nothing: no dataset is opened,
    no loader constructed. *)
Theorem load_data_before_add_transforms (pf : platform) (st : state) (bs nw : Z) :
  self_data_transforms (self st) = None ->
  load_data pf bs nw st = (inl AttributeError, st).
Proof.
  intros Hd. unfold load_data.
  repeat (progress (mstep; rewrite ?Hd)). reflexivity.
Qed.

Lemma load_data_before_add_transforms_witness :
  load_data no_worker_loaders 4 2 two_lists = (inl AttributeError, two_lists).
Proof.
  apply (load_data_before_add_transforms no_worker_loaders two_lists 4 2).
  reflexivity.
Defined.



(** X9. When both loaders come up and the preview batch is fetched,
    [load_data] completes on its first attempt: it keeps the loaders
    with the requested number of workers, constructs each loader once,
    fetches one preview batch and prints nothing. *)
Theorem load_data_first_attempt (pf : platform) (st : state) (bs nw : Z)
    (tr va : ImageFolder) (l1 l2 : DataLoader) (b : list tensor3 * list nat) :
  datasets_open pf st tr va ->
  construct_loaders pf tr va bs nw = inr (l1, l2) ->
  loader_first pf (heap st) l1 = inr b ->
  num_workers l1 = nw /\ num_workers l2 = nw /\
  load_data pf bs nw st =
    (inr tt,
     loaded st tr va l1 l2
       [EvDataLoader (root tr) bs true nw;
        EvDataLoader (root va) bs true nw;
        EvNextBatch (root tr)]).
Proof.
  intros Hopen Hc Hb.
  pose proof (load_data_run pf st bs nw tr va Hopen) as Hrun.
  unfold guarded_outcome, guarded_events in Hrun.
  rewrite Hc in Hrun. cbv [mbind res_bind fst] in Hrun. rewrite Hb in Hrun.
  rewrite (construct_events_inr _ _ _ _ _ _ _ Hc) in Hrun.
  apply construct_loaders_inr in Hc as [H1 H2].
  apply DataLoader_new_inr in H1 as [-> _].
  apply DataLoader_new_inr in H2 as [-> _].
  repeat split. exact Hrun.
Qed.

Lemma load_data_first_attempt_witness :
  load_data unequal_widths 1 0 plain_session =
    (inr tt,
     loaded plain_session (demo_dataset "train" 1%positive)
       (demo_dataset "val" 1%positive)
       (demo_loader (demo_dataset "train" 1%positive) 1 true 0)
       (demo_loader (demo_dataset "val" 1%positive) 1 true 0)
       [EvDataLoader "data/train" 1 true 0;
        EvDataLoader "data/val" 1 true 0;
        EvNextBatch "data/train"]).
Proof.
  destruct (load_data_first_attempt unequal_widths plain_session 1 0
              (demo_dataset "train" 1%positive) (demo_dataset "val" 1%positive)
              (demo_loader (demo_dataset "train" 1%positive) 1 true 0)
              (demo_loader (demo_dataset "val" 1%positive) 1 true 0)
              ([to_tensor demo_black], [0%nat])) as (_ & _ & Hrun).
  - exists (<["val" := {| transforms := 1%positive |}]>
              (<["train" := {| transforms := 1%positive |}]> ∅)),
      {| transforms := 1%positive |}, {| transforms := 1%positive |}.
    repeat split; vm_compute; reflexivity.
  - vm_compute. reflexivity.
  - vm_compute. reflexivity.
  - exact Hrun.
Defined.

(** X10. Whatever happens after the datasets are open, one call of
    [load_data] prints at most one warning, constructs at most four
    loaders (two attempts of two) and asks for at most one batch. *)
Theorem load_data_bounded_effects (pf : platform) (st : state) (bs nw : Z)
    (tr va : ImageFolder) :
  datasets_open pf st tr va ->
  exists evs,
    events (snd (load_data pf bs nw st)) = events st ++ evs /\
    (length (List.filter is_print evs) <= 1)%nat /\
    (length (List.filter is_construction evs) <= 4)%nat /\
    (length (List.filter is_batch_request evs) <= 1)%nat.
Proof.
  intros Hopen. rewrite (load_data_run pf st bs nw tr va Hopen).
  unfold guarded_outcome, guarded_events, construct_events, construct_loaders,
    loaded, interrupted.
  cbv [mbind res_bind mret res_ret]; cbv beta iota.
  destruct (DataLoader_new pf tr bs true nw) as [e1|l1];
    [|destruct (DataLoader_new pf va bs true nw) as [e2|l2];
      [|cbn [fst]; destruct (loader_first pf (heap st) l1) as [e5|b]]];
    try destruct (is_RuntimeError _);
    try (destruct (DataLoader_new pf tr bs true 0) as [e3|l3];
         [|destruct (DataLoader_new pf va bs true 0) as [e4|l4]]);
    cbn [snd events]; eexists; (split; [reflexivity|]);
    cbn; repeat split; lia.
Qed.

Lemma load_data_bounded_effects_witness :
  exists evs,
    events (snd (load_data no_worker_start 4 2 composed)) = events composed ++ evs /\
    (length (List.filter is_print evs) <= 1)%nat /\
    (length (List.filter is_construction evs) <= 4)%nat /\
    (length (List.filter is_batch_request evs) <= 1)%nat.
Proof.
  apply (load_data_bounded_effects no_worker_start composed 4 2
           (demo_dataset "train" 1%positive) (demo_dataset "val" 2%positive)).
  apply demo_datasets_open. reflexivity.
Defined.

(** A batch whose items load to tensors of different shapes cannot be
    stacked: fetching it raises a [RuntimeError]. *)
Lemma fetch_unequal_shapes (pf : platform) (h : gmap loc (list stage))
    (loader : DataLoader) (idxs : list nat) (ts : list tensor3) :
  map_res (item_tensor pf h (dataset loader)) idxs = inr ts ->
  forallb (fun t => bool_decide (dims3 t = dims3 (hd [] ts))) ts = false ->
  fetch pf h loader idxs = inl RuntimeError.
Proof.
  intros Hts Hdims. unfold item_tensor in Hts.
  apply map_res_bind_inv in Hts as (items & Hitems & Hts).
  unfold fetch, default_collate. rewrite Hitems.
  cbv [mbind res_bind mret res_ret]. cbv beta iota.
  rewrite Hts, Hdims. reflexivity.
Qed.

(** X11. Any [RuntimeError] from the preview batch is taken for a
    worker failure.  With 0 workers requested and a first "train" batch
    whose images have different shapes, [load_data] prints the
    multiple-workers warning, constructs the same loaders again and
    completes: the error is not reported to the caller. *)
Theorem load_data_swallows_unequal_shapes (pf : platform) (st : state) (bs : Z)
    (tr va : ImageFolder) (l1 l2 : DataLoader) (idxs : list nat)
    (more : list (list nat)) (ts : list tensor3) :
  datasets_open pf st tr va ->
  construct_loaders pf tr va bs 0 = inr (l1, l2) ->
  batch_indices pf l1 = idxs :: more ->
  map_res (item_tensor pf (heap st) tr) idxs = inr ts ->
  forallb (fun t => bool_decide (dims3 t = dims3 (hd [] ts))) ts = false ->
  load_data pf bs 0 st =
    (inr tt,
     loaded st tr va l1 l2
       [EvDataLoader (root tr) bs true 0;
        EvDataLoader (root va) bs true 0;
        EvNextBatch (root tr);
        EvPrint warning;
        EvDataLoader (root tr) bs true 0;
        EvDataLoader (root va) bs true 0]).
Proof.
  intros Hopen Hc Hidx Hts Hdims.
  pose proof (load_data_run pf st bs 0 tr va Hopen) as Hrun.
  assert (Hfirst : loader_first pf (heap st) l1 = inl RuntimeError).
  { destruct (construct_loaders_inr _ _ _ _ _ _ _ Hc) as [H1 _].
    apply DataLoader_new_inr in H1 as [Hl1 _].
    unfold loader_first, loader_iter. rewrite Hidx.
    rewrite Hl1 at 1. cbn [num_workers]. change (0 <? 0) with false.
    cbv [mbind res_bind mret res_ret]; cbv beta iota.
    apply (fetch_unequal_shapes pf (heap st) l1 idxs ts); [|exact Hdims].
    rewrite Hl1. exact Hts. }
  unfold guarded_outcome, guarded_events in Hrun.
  rewrite Hc in Hrun. cbv [mbind res_bind fst] in Hrun.
  rewrite Hfirst in Hrun. cbn [is_RuntimeError] in Hrun.
  rewrite (construct_events_inr _ _ _ _ _ _ _ Hc) in Hrun.
  exact Hrun.
Qed.

Lemma load_data_swallows_unequal_shapes_witness :
  exists st',
    load_data unequal_widths 2 0 plain_session = (inr tt, st') /\
    In (EvPrint warning) (events st').
Proof.
  eexists. split.
  - apply (load_data_swallows_unequal_shapes unequal_widths plain_session 2
             (demo_dataset "train" 1%positive) (demo_dataset "val" 1%positive)
             (demo_loader (demo_dataset "train" 1%positive) 2 true 0)
             (demo_loader (demo_dataset "val" 1%positive) 2 true 0)
             [0; 1]%nat [] [to_tensor demo_black; to_tensor demo_wide]).
    + exists (<["val" := {| transforms := 1%positive |}]>
                (<["train" := {| transforms := 1%positive |}]> ∅)),
        {| transforms := 1%positive |}, {| transforms := 1%positive |}.
      repeat split; vm_compute; reflexivity.
    + vm_compute. reflexivity.
    + vm_compute. reflexivity.
    + vm_compute. reflexivity.
    + vm_compute. reflexivity.
  - cbn. right. right. right. left. reflexivity.
Defined.

Lemma HdRel_insert_sorted (x y : string) (l : list string) :
  HdRel String.le y l -> String.le y x ->
  HdRel String.le y (insert_sorted String.leb x l).
Proof.
  intros Hl Hyx. destruct l as [|z l]; cbn.
  - constructor. exact Hyx.
  - destruct (String.leb x z); constructor; [exact Hyx|].
    inversion Hl; assumption.
Qed.

Lemma insert_sorted_Sorted (x : string) (l : list string) :
  Sorted String.le l -> Sorted String.le (insert_sorted String.leb x l).
Proof.
  induction l as [|y l IH]; intros Hs; cbn.
  - repeat constructor.
  - destruct (String.leb x y) eqn:Hxy.
    + constructor; [exact Hs|]. constructor. unfold String.le. rewrite Hxy. exact I.
    + inversion Hs as [|? ? Hs' Hhd]; subst.
      constructor; [apply IH; exact Hs'|].
      apply HdRel_insert_sorted; [exact Hhd|].
      destruct (String.le_total y x) as [H|H]; [exact H|].
      unfold String.le in H. rewrite Hxy in H. destruct H.
Qed.

(** [sorted(l)] of strings is in lexicographic order. *)
Lemma sorted_Sorted (l : list string) : Sorted String.le (sorted String.leb l).
Proof.
  induction l as [|x l IH]; cbn; [constructor|].
  apply insert_sorted_Sorted. exact IH.
Qed.

Lemma imap_labels_bound {A} (f : string -> list A) (classes : list string) (k : nat) :
  forall x i,
    In (x, i) (concat (imap (fun idx c => map (fun p => (p, (k + idx)%nat)) (f c))
                            classes)) ->
    (i < k + length classes)%nat.
Proof.
  revert k. induction classes as [|c classes IH]; intros k x i Hin.
  - destruct Hin.
  - rewrite imap_cons in Hin. cbn [concat] in Hin.
    apply in_app_or in Hin as [Hin|Hin].
    + apply in_map_iff in Hin as (p & [= _ <-] & _). cbn. lia.
    + assert (Hi : (i < S k + length classes)%nat).
      { apply (IH (S k) x i).
        erewrite imap_ext; [exact Hin|].
        intros idx c' _. unfold compose.
        replace (S k + idx)%nat with (k + S idx)%nat by lia. reflexivity. }
      cbn [length]. lia.
Qed.

(** What a dataset [ImageFolder] accepts looks like. *)
Lemma ImageFolder_init_inv (pf : platform) (directory : string) (c : Compose)
    (ds : ImageFolder) :
  ImageFolder_init pf directory c = inr ds ->
  exists entries,
    fs pf !! directory = Some entries /\
    root ds = directory /\
    transform ds = c /\
    classes ds = sorted String.leb (dir_names entries) /\
    Forall (fun s => (snd s < length (classes ds))%nat) (samples ds).
Proof.
  unfold ImageFolder_init, find_classes, make_dataset.
  destruct (fs pf !! directory) as [entries|]; [|discriminate].
  destruct (sorted String.leb (dir_names entries)) as [|c0 cs] eqn:Hc; [discriminate|].
  cbv [mbind res_bind mret res_ret]; cbv beta iota.
  destruct (existsb _ _); [discriminate|].
  intros [= <-]. exists entries. cbn [root transform classes samples].
  split; [reflexivity|]. split; [reflexivity|]. split; [reflexivity|].
  split; [symmetry; exact Hc|].
  apply Forall_forall. intros [x i] Hin. apply list_elem_of_In in Hin.
  cbn [snd]. apply (imap_labels_bound (class_paths directory entries) (c0 :: cs) 0 x i).
  exact Hin.
Qed.

(** X12. Whenever the datasets are open and the loaders come up,
    [load_data] completes and what it records is well formed: the class
    names are those of the "train" split alone, at least one, in
    lexicographic order; both dataset sizes are positive; and every
    "train" label is an index into the class names. *)
Theorem load_data_records_valid (pf : platform) (st : state) (bs nw : Z)
    (tr va : ImageFolder) :
  datasets_open pf st tr va ->
  loaders_come_up pf (heap st) tr va bs nw = true ->
  exists st' sizes,
    load_data pf bs nw st = (inr tt, st') /\
    self_class_names (self st') = Some (classes tr) /\
    classes tr <> [] /\
    Sorted String.le (classes tr) /\
    self_dataset_sizes (self st') = Some sizes /\
    sizes !! "train" = Some (length (samples tr)) /\
    sizes !! "val" = Some (length (samples va)) /\
    (0 < length (samples tr))%nat /\
    (0 < length (samples va))%nat /\
    Forall (fun s => (snd s < length (classes tr))%nat) (samples tr).
Proof.
  intros Hopen Hup.
  destruct (load_data_records pf st bs nw tr va Hopen Hup) as (l1 & l2 & evs & Hrun).
  destruct Hopen as (d & ct & cv & _ & _ & _ & Htr & Hva).
  destruct (ImageFolder_init_inv _ _ _ _ Htr) as (entries & _ & _ & _ & Hcl & Hlab).
  pose proof (ImageFolder_init_nonempty _ _ _ _ Htr) as Hnt.
  pose proof (ImageFolder_init_nonempty _ _ _ _ Hva) as Hnv.
  eexists _, _. split; [exact Hrun|].
  cbn [loaded self self_class_names self_dataset_sizes with_class_names
       with_dataset_sizes].
  split; [reflexivity|]. split.
  { intros Hnil. rewrite Hnil in Hlab.
    destruct (samples tr) as [|s0 ss]; [congruence|].
    apply Forall_cons_1 in Hlab as [Hlab _]. cbn in Hlab. lia. }
  split; [rewrite Hcl; apply sorted_Sorted|].
  split; [reflexivity|].
  split; [rewrite lookup_insert_ne by discriminate; apply lookup_insert_eq|].
  split; [apply lookup_insert_eq|].
  split; [destruct (samples tr); [congruence|cbn; lia]|].
  split; [destruct (samples va); [congruence|cbn; lia]|].
  exact Hlab.
Qed.

Lemma load_data_records_valid_witness :
  exists st',
    load_data no_worker_start 4 2 composed = (inr tt, st') /\
    self_class_names (self st') = Some ["Bad"; "Good"].
Proof.
  destruct (load_data_records_valid no_worker_start composed 4 2
              (demo_dataset "train" 1%positive) (demo_dataset "val" 2%positive))
    as (st' & sizes & Hrun & Hnames & _).
  - apply demo_datasets_open. reflexivity.
  - vm_compute. reflexivity.
  - exists st'. split; [exact Hrun | exact Hnames].
Defined.

(* ------------------------------------------------------------------ *)
(** ** Batches and the preview *)

(** The batches, one after the other, are the pending indices followed
    by the sampled ones: nothing is dropped, repeated or reordered. *)
Lemma batch_sampler_concat (bs : Z) (idxs : list nat) :
  forall pending, concat (batch_sampler bs idxs pending) = pending ++ idxs.
Proof.
  induction idxs as [|idx idxs IH]; intros pending.
  - destruct pending; cbn; rewrite ?app_nil_r; reflexivity.
  - cbn [batch_sampler].
    destruct (Z.of_nat (length (pending ++ [idx])) =? bs).
    + cbn [concat]. rewrite IH, <- app_assoc. reflexivity.
    + rewrite IH, <- app_assoc. reflexivity.
Qed.

(** The batches are full ones, followed by at most one shorter, non
    empty batch. *)
Lemma batch_sampler_shape (bs : Z) (idxs : list nat) :
  forall pending,
    Z.of_nat (length pending) < bs ->
    exists full last,
      batch_sampler bs idxs pending = full ++ last /\
      Forall (fun b => Z.of_nat (length b) = bs) full /\
      (last = [] \/
       exists b, last = [b] /\ b <> [] /\ Z.of_nat (length b) < bs).
Proof.
  induction idxs as [|idx idxs IH]; intros pending Hp.
  - exists []. destruct pending as [|p pending].
    + exists []. repeat split; [constructor | left; reflexivity].
    + exists [p :: pending]. repeat split; [constructor|].
      right. eexists. repeat split; [discriminate | exact Hp].
  - cbn [batch_sampler].
    destruct (Z.of_nat (length (pending ++ [idx])) =? bs) eqn:Hfull.
    + apply Z.eqb_eq in Hfull.
      destruct (IH []) as (full & last & Heq & Hfulls & Hlast).
      { rewrite length_app in Hfull. cbn in *. lia. }
      exists ((pending ++ [idx]) :: full), last. rewrite Heq.
      repeat split; [constructor; assumption | exact Hlast].
    + apply Z.eqb_neq in Hfull. apply IH.
      rewrite length_app in *. cbn [length] in *. lia.
Qed.

Lemma batch_sampler_bounds (bs : Z) (idxs pending : list nat) :
  Z.of_nat (length pending) < bs ->
  Forall (fun b => b <> [] /\ Z.of_nat (length b) <= bs)
         (batch_sampler bs idxs pending).
Proof.
  intros Hp.
  destruct (batch_sampler_shape bs idxs pending Hp) as (full & last & -> & Hf & Hl).
  apply Forall_app. split.
  - eapply Forall_impl; [exact Hf|]. intros b Hb. cbn beta in Hb. split; [|lia].
    intros ->. cbn in Hb. cbn in Hp. lia.
  - destruct Hl as [->|(b & -> & Hne & Hlt)]; [constructor|].
    constructor; [|constructor]. split; [exact Hne | lia].
Qed.

Lemma fetch_lengths (pf : platform) (h : gmap loc (list stage)) (dl : DataLoader)
    (idxs : list nat) (imgs : list tensor3) (labels : list nat) :
  fetch pf h dl idxs = inr (imgs, labels) ->
  length imgs = length idxs /\ length labels = length idxs.
Proof.
  unfold fetch, default_collate. cbv [mbind res_bind mret res_ret]; cbv beta iota.
  destruct (map_res (ImageFolder_getitem pf h (dataset dl)) idxs) as [|items] eqn:Hi;
    [discriminate|].
  destruct (map_res (fun it => as_tensor (fst it)) items) as [|ts] eqn:Ht;
    [discriminate|].
  destruct (forallb _ ts); [|discriminate].
  intros [= <- <-].
  apply map_res_length in Hi, Ht. rewrite length_map. split; congruence.
Qed.

(** X13. [get_batchdata] needs a loader for the split it is asked for:
    before [load_data] it raises [AttributeError], for a split name
    that has no loader it raises [KeyError]; either way nothing is
    fetched and the session is unchanged. *)
Theorem get_batchdata_without_loader (pf : platform) (data : string) (st : state) :
  (d ← self_dataloaders (self st); d !! data) = None ->
  get_batchdata pf data st =
    (inl (match self_dataloaders (self st) with
          | None => AttributeError
          | Some _ => KeyError
          end), st).
Proof.
  intros H. unfold get_batchdata.
  destruct (self_dataloaders (self st)) as [d|] eqn:Hd; cbn in H.
  - repeat (progress (mstep; rewrite ?Hd, ?H)). reflexivity.
  - repeat (progress (mstep; rewrite ?Hd)). reflexivity.
Qed.

Lemma get_batchdata_without_loader_witness :
  get_batchdata no_worker_loaders "train" composed = (inl AttributeError, composed) /\
  fst (get_batchdata no_worker_loaders "test"
         (snd (load_data no_worker_loaders 4 2 composed))) = inl KeyError.
Proof.
  split.
  - apply (get_batchdata_without_loader no_worker_loaders "train" composed).
    vm_compute. reflexivity.
  - rewrite (get_batchdata_without_loader no_worker_loaders "test").
    + vm_compute. reflexivity.
    + vm_compute. reflexivity.
Defined.

(** X14. With a loader for the split, [get_batchdata] asks for one
    batch and returns the grid of its images with its labels, changing
    nothing else.  The batch is not empty and holds at most
    [batch_size] images, one label per image. *)
Theorem get_batchdata_preview (pf : platform) (data : string) (st : state)
    (d : gmap string DataLoader) (dl : DataLoader)
    (imgs : list tensor3) (labels : list nat) :
  self_dataloaders (self st) = Some d ->
  d !! data = Some dl ->
  0 < batch_size dl ->
  loader_first pf (heap st) dl = inr (imgs, labels) ->
  get_batchdata pf data st =
    (inr (make_grid pf imgs, labels),
     {| heap := heap st; self := self st;
        events := events st ++ [EvNextBatch (root (dataset dl))] |}) /\
  length imgs = length labels /\
  (0 < length labels)%nat /\
  Z.of_nat (length labels) <= batch_size dl.
Proof.
  intros Hd Hdl Hbs Hfirst. split.
  - unfold get_batchdata.
    repeat (progress (mstep; rewrite ?Hd, ?Hdl, ?Hfirst)). reflexivity.
  - unfold loader_first in Hfirst. cbv [mbind res_bind] in Hfirst.
    destruct (loader_iter pf dl); [discriminate|].
    pose proof (batch_sampler_bounds (batch_size dl) (sampler pf dl) []) as Hb.
    unfold batch_indices in Hfirst.
    destruct (batch_sampler (batch_size dl) (sampler pf dl) []) as [|idxs more];
      [discriminate|].
    apply Forall_cons_1 in Hb as [[Hne Hle] _]; [|cbn; lia].
    apply fetch_lengths in Hfirst as [Hi Hl].
    rewrite Hi, Hl. repeat split; [|exact Hle].
    destruct idxs; [congruence|cbn; lia].
Qed.

Lemma get_batchdata_preview_witness :
  exists st',
    get_batchdata unequal_widths "val"
      (snd (load_data unequal_widths 2 0 plain_session)) =
      (inr (to_tensor demo_black, [0; 1]%nat), st').
Proof.
  destruct (get_batchdata_preview unequal_widths "val"
              (snd (load_data unequal_widths 2 0 plain_session))
              (<["val" := demo_loader (demo_dataset "val" 1%positive) 2 true 0]>
                 (<["train" := demo_loader (demo_dataset "train" 1%positive) 2 true 0]> ∅))
              (demo_loader (demo_dataset "val" 1%positive) 2 true 0)
              [to_tensor demo_black; to_tensor demo_black] [0; 1]%nat)
    as [Hrun _].
  - vm_compute. reflexivity.
  - vm_compute. reflexivity.
  - reflexivity.
  - vm_compute. reflexivity.
  - eexists. exact Hrun.
Defined.

(** X15. The loader [get_meanstd] iterates visits every sample index
    once, in order, whatever the batch size: its batches are full ones
    followed by at most one shorter, non-empty batch, and one after the
    other they are 0, ..., N-1. *)
Theorem statistics_batches_partition (pf : platform) (ds : ImageFolder) (bs : Z)
    (loader : DataLoader) :
  DataLoader_new pf ds bs false 0 = inr loader ->
  concat (batch_indices pf loader) = seq 0 (length (samples ds)) /\
  exists full last,
    batch_indices pf loader = full ++ last /\
    Forall (fun b => Z.of_nat (length b) = bs) full /\
    (last = [] \/ exists b, last = [b] /\ b <> [] /\ Z.of_nat (length b) < bs).
Proof.
  intros Hdl. apply DataLoader_new_inr in Hdl as (-> & Hbs & _).
  unfold batch_indices, sampler. cbn [batch_size shuffle dataset]. split.
  - apply batch_sampler_concat.
  - apply batch_sampler_shape. cbn. lia.
Qed.

Lemma statistics_batches_partition_witness :
  batch_indices no_worker_loaders
    (demo_loader (demo_dataset "train" 3%positive) 2 false 0) = [[0; 1]]%nat /\
  concat (batch_indices no_worker_loaders
            (demo_loader (demo_dataset "train" 3%positive) 2 false 0)) = [0; 1]%nat.
Proof.
  destruct (statistics_batches_partition no_worker_loaders
              (demo_dataset "train" 3%positive) 2
              (demo_loader (demo_dataset "train" 3%positive) 2 false 0))
    as [Hconcat _].
  - vm_compute. reflexivity.
  - split; [vm_compute; reflexivity | exact Hconcat].
Defined.

(* ------------------------------------------------------------------ *)
(** ** More on the mean/std estimator *)

(** The result and the final state of [get_meanstd] when the split
    opens and its images load. *)
Lemma get_meanstd_run (pf : platform) (st : state) (transform : loc) (bs : Z)
    (split : string) (tf : list stage) (ds : ImageFolder) (loader : DataLoader)
    (imgs : list tensor3) (C : nat) :
  heap st !! transform = Some tf ->
  ImageFolder_init pf (path_join (self_data_dir (self st)) split)
    {| transforms := fresh (dom (heap st)) |} = inr ds ->
  DataLoader_new pf ds bs false 0 = inr loader ->
  dataset_tensors pf (<[fresh (dom (heap st)) := tf ++ [ToTensor]]> (heap st)) ds
    = inr imgs ->
  Forall (fun t => length t = C) imgs ->
  stackable bs [] imgs ->
  imgs <> [] /\
  get_meanstd pf transform bs split st =
    (inr (PyTensor (image_stat_mean chan_mean imgs),
          PyTensor (image_stat_mean chan_std imgs)),
     {| heap := <[fresh (dom (heap st)) := tf ++ [ToTensor]]> (heap st);
        self := self st;
        events := events st ++ [EvDataLoader (root ds) bs false 0] |}).
Proof.
  intros Htf Hds Hdl Himgs HC Hst.
  pose proof (get_meanstd_sums_run pf st transform bs split tf ds loader imgs C
                Htf Hds Hdl Himgs HC Hst) as Hrun.
  assert (Hne : imgs <> []).
  { pose proof (ImageFolder_init_nonempty _ _ _ _ Hds) as Hs.
    pose proof (map_res_length _ _ _ Himgs) as Hl. rewrite length_seq in Hl.
    destruct imgs; [|discriminate]. destruct (samples ds); [congruence|discriminate]. }
  split; [exact Hne|].
  destruct imgs as [|i0 imgs]; [congruence|].
  unfold get_meanstd. cbv [mbind M_bind]. rewrite Hrun. cbn [acc_of].
  cbv [lift idiv mret res_ret M_ret]. cbv beta iota.
  unfold image_stat_mean, col_stat. rewrite !map_map.
  apply Forall_cons_1 in HC as [HC0 _]. cbn [hd]. rewrite HC0. reflexivity.
Qed.

(** X16. The statistics do not depend on the batch size: on a split
    whose images load with one shape, any two valid batch sizes give
    the same mean and std. *)
Theorem get_meanstd_any_batch_size (pf : platform) (st : state) (transform : loc)
    (bs1 bs2 : Z) (split : string) (tf : list stage) (ds : ImageFolder)
    (loader1 loader2 : DataLoader) (imgs : list tensor3) (d : nat * nat * nat) :
  heap st !! transform = Some tf ->
  ImageFolder_init pf (path_join (self_data_dir (self st)) split)
    {| transforms := fresh (dom (heap st)) |} = inr ds ->
  DataLoader_new pf ds bs1 false 0 = inr loader1 ->
  DataLoader_new pf ds bs2 false 0 = inr loader2 ->
  dataset_tensors pf (<[fresh (dom (heap st)) := tf ++ [ToTensor]]> (heap st)) ds
    = inr imgs ->
  Forall (fun t => dims3 t = d) imgs ->
  exists mean std,
    fst (get_meanstd pf transform bs1 split st) = inr (mean, std) /\
    fst (get_meanstd pf transform bs2 split st) = inr (mean, std).
Proof.
  intros Htf Hds Hdl1 Hdl2 Himgs Hd.
  assert (HC : Forall (fun t : tensor3 => length t = fst (fst d)) imgs).
  { eapply Forall_impl; [exact Hd|]. intros t <-. reflexivity. }
  assert (Hst : forall bs, stackable bs [] imgs) by (intros bs; right; eauto).
  destruct (get_meanstd_run pf st transform bs1 split tf ds loader1 imgs _
              Htf Hds Hdl1 Himgs HC (Hst bs1)) as [_ H1].
  destruct (get_meanstd_run pf st transform bs2 split tf ds loader2 imgs _
              Htf Hds Hdl2 Himgs HC (Hst bs2)) as [_ H2].
  rewrite H1, H2. eexists _, _. split; reflexivity.
Qed.

Lemma get_meanstd_any_batch_size_witness :
  fst (get_meanstd no_worker_loaders 1%positive 1 "train" two_lists) =
  fst (get_meanstd no_worker_loaders 1%positive 2 "train" two_lists).
Proof.
  destruct (get_meanstd_any_batch_size no_worker_loaders two_lists 1%positive
              1 2 "train" [AFMcrop] (demo_dataset "train" 3%positive)
              (demo_loader (demo_dataset "train" 3%positive) 1 false 0)
              (demo_loader (demo_dataset "train" 3%positive) 2 false 0)
              demo_tensors (3, 1, 2)%nat) as (m & s & H1 & H2).
  - vm_compute. reflexivity.
  - vm_compute. reflexivity.
  - vm_compute. reflexivity.
  - vm_compute. reflexivity.
  - vm_compute. reflexivity.
  - repeat constructor.
  - rewrite H1, H2. reflexivity.
Defined.

Lemma Rsum_const (V : R) (l : list R) :
  Forall (fun p => p = V) l -> Rsum l = (INR (length l) * V)%R.
Proof.
  unfold Rsum. induction 1 as [|x l -> _ IH].
  - cbn. lra.
  - cbn [foldr length]. rewrite IH, S_INR. lra.
Qed.

Lemma Rmult_div_same (n s : R) : n <> 0%R -> (n * s / n)%R = s.
Proof. intros Hn. field. exact Hn. Qed.

Lemma chan_mean_const (V : R) (l : list R) :
  Forall (fun p => p = V) l -> (1 <= length l)%nat -> chan_mean l = V.
Proof.
  intros Hl Hn. unfold chan_mean. rewrite (Rsum_const V l Hl).
  field. apply not_0_INR. lia.
Qed.

Lemma chan_std_const (V : R) (l : list R) :
  Forall (fun p => p = V) l -> (1 <= length l)%nat -> chan_std l = 0%R.
Proof.
  intros Hl Hn. unfold chan_std. rewrite (chan_mean_const V l Hl Hn).
  rewrite (Rsum_const 0%R).
  - unfold Rdiv. rewrite Rmult_0_r, Rmult_0_l. apply sqrt_0.
  - apply Forall_forall. intros p Hp.
    apply list_elem_of_In, in_map_iff in Hp as (x & <- & Hx).
    rewrite Forall_forall in Hl. rewrite (Hl x) by (apply list_elem_of_In; exact Hx).
    lra.
Qed.

Lemma map_seq_const {A} (f : nat -> A) (v : A) (n : nat) :
  forall start,
    (forall c, (start <= c < start + n)%nat -> f c = v) ->
    map f (seq start n) = repeat v n.
Proof.
  induction n as [|n IH]; intros start Hf; [reflexivity|].
  cbn [seq map repeat]. rewrite (Hf start) by lia. f_equal.
  apply IH. intros c Hc. apply Hf. lia.
Qed.

(** On images that all have the value [s] of the statistic [f] in
    every channel, the mean over the images is [s]. *)
Lemma image_stat_mean_const (f : list R -> R) (s : R) (C : nat) (imgs : list tensor3) :
  imgs <> [] ->
  Forall (fun t => length t = C) imgs ->
  Forall (fun t => Forall (fun ch => f (concat ch) = s) t) imgs ->
  image_stat_mean f imgs = repeat s C.
Proof.
  intros Hne HC Hs. unfold image_stat_mean.
  assert (HC0 : length (hd [] imgs) = C).
  { destruct imgs as [|i0 imgs]; [congruence|].
    apply Forall_cons_1 in HC as [H _]. exact H. }
  rewrite HC0. apply map_seq_const. intros c Hc.
  rewrite (Rsum_const s).
  - rewrite length_map. apply Rmult_div_same. apply not_0_INR.
    destruct imgs; [congruence|discriminate].
  - apply Forall_forall. intros p Hp.
    apply list_elem_of_In, in_map_iff in Hp as (img & <- & Himg).
    apply list_elem_of_In in Himg.
    rewrite Forall_forall in HC, Hs.
    specialize (HC img Himg). specialize (Hs img Himg).
    rewrite Forall_forall in Hs. apply Hs. apply list_elem_of_In.
    apply nth_In. lia.
Qed.

(** X17. On a split whose images all hold the one value [V] (with at
    least two pixels per channel), [get_meanstd] returns the mean [V]
    and the standard deviation 0 in every channel. *)
Theorem get_meanstd_constant_images (pf : platform) (st : state) (transform : loc)
    (bs : Z) (split : string) (tf : list stage) (ds : ImageFolder)
    (loader : DataLoader) (imgs : list tensor3) (C : nat) (V : R) :
  heap st !! transform = Some tf ->
  ImageFolder_init pf (path_join (self_data_dir (self st)) split)
    {| transforms := fresh (dom (heap st)) |} = inr ds ->
  DataLoader_new pf ds bs false 0 = inr loader ->
  dataset_tensors pf (<[fresh (dom (heap st)) := tf ++ [ToTensor]]> (heap st)) ds
    = inr imgs ->
  Forall (fun t => length t = C) imgs ->
  bs = 1 \/ (exists d, Forall (fun t => dims3 t = d) imgs) ->
  Forall (constant_image V) imgs ->
  fst (get_meanstd pf transform bs split st) =
    inr (PyTensor (repeat V C), PyTensor (repeat 0%R C)).
Proof.
  intros Htf Hds Hdl Himgs HC Hshape Hconst.
  assert (Hst : stackable bs [] imgs).
  { destruct Hshape as [Hb|Hd]; [left; split; [exact Hb|reflexivity]|right; exact Hd]. }
  destruct (get_meanstd_run pf st transform bs split tf ds loader imgs C
              Htf Hds Hdl Himgs HC Hst) as [Hne Hrun].
  rewrite Hrun. cbn [fst].
  rewrite (image_stat_mean_const chan_mean V C imgs Hne HC).
  2:{ eapply Forall_impl; [exact Hconst|]. intros t Ht.
      eapply Forall_impl; [exact Ht|]. intros ch [Hn Hv].
      apply chan_mean_const; [exact Hv | lia]. }
  rewrite (image_stat_mean_const chan_std 0%R C imgs Hne HC).
  2:{ eapply Forall_impl; [exact Hconst|]. intros t Ht.
      eapply Forall_impl; [exact Ht|]. intros ch [Hn Hv].
      apply (chan_std_const V); [exact Hv | lia]. }
  reflexivity.
Qed.

Lemma get_meanstd_constant_images_witness :
  fst (get_meanstd no_worker_start 1%positive 2 "train" two_lists) =
    inr (PyTensor (repeat (IZR 0 / 255)%R 3), PyTensor (repeat 0%R 3)).
Proof.
  apply (get_meanstd_constant_images no_worker_start two_lists 1%positive 2
           "train" [AFMcrop] (demo_dataset "train" 3%positive)
           (demo_loader (demo_dataset "train" 3%positive) 2 false 0)
           [to_tensor (PIL 2 1 3 (fun _ _ _ => 0));
            to_tensor (PIL 2 1 3 (fun _ _ _ => 0))] 3%nat).
  - vm_compute. reflexivity.
  - vm_compute. reflexivity.
  - vm_compute. reflexivity.
  - vm_compute. reflexivity.
  - repeat constructor.
  - right. exists (3, 1, 2)%nat. repeat constructor.
  - repeat constructor.
Defined.

(** X18. Whatever its arguments and whether it returns or raises,
    [get_meanstd] leaves the object and every existing list as they
    were: the transform list it extends is its own copy. *)
Theorem get_meanstd_frame (pf : platform) (st : state) (transform : loc) (bs : Z)
    (split : string) :
  self (snd (get_meanstd pf transform bs split st)) = self st /\
  forall l x,
    heap st !! l = Some x ->
    heap (snd (get_meanstd pf transform bs split st)) !! l = Some x.
Proof.
  assert (Hfresh : forall l x, heap st !! l = Some x -> l <> fresh (dom (heap st))).
  { intros l x Hl ->. apply (is_fresh (dom (heap st))). apply elem_of_dom. eauto. }
  unfold get_meanstd, get_meanstd_sums. mstep.
  destruct (heap st !! transform) as [tf|]; mstep; [|split; auto].
  destruct (ImageFolder_init pf _ _) as [e|ds]; mstep.
  { split; [reflexivity|]. intros l x Hl.
    rewrite lookup_insert_ne by (apply not_eq_sym; eapply Hfresh; exact Hl). exact Hl. }
  destruct (DataLoader_new pf ds bs false 0) as [e|loader]; mstep.
  { split; [reflexivity|]. intros l x Hl.
    rewrite lookup_insert_ne by (apply not_eq_sym; eapply Hfresh; exact Hl). exact Hl. }
  match goal with
  | |- context [match ?r with inl _ => _ | inr _ => _ end] =>
      destruct r as [e|[[m s] n]]
  end; mstep.
  { split; [reflexivity|]. intros l x Hl.
    rewrite lookup_insert_ne by (apply not_eq_sym; eapply Hfresh; exact Hl). exact Hl. }
  destruct (idiv m n) as [e|m']; mstep;
    [|destruct (idiv s n) as [e|s']; mstep];
    (split; [reflexivity|]); intros l x Hl;
    (rewrite lookup_insert_ne by (apply not_eq_sym; eapply Hfresh; exact Hl));
    exact Hl.
Qed.

(** With a pipeline that raises on every input, no item of a dataset
    can be fetched. *)
Lemma getitem_raises (pf : platform) (h : gmap loc (list stage)) (ds : ImageFolder)
    (stages : list stage) :
  h !! transforms (transform ds) = Some stages ->
  (forall v, exists e, Compose_call stages v = inl e) ->
  forall i, exists e, ImageFolder_getitem pf h ds i = inl e.
Proof.
  intros Hst Hraise i. unfold ImageFolder_getitem.
  destruct (samples ds !! i) as [[path target]|]; [|eexists; reflexivity].
  cbv [mbind res_bind]. destruct (pil_loader pf path) as [e|img]; [eauto|].
  rewrite Hst. destruct (Hraise (VImage img)) as [e He]. rewrite He. eauto.
Qed.

Lemma fetch_raises (pf : platform) (h : gmap loc (list stage)) (dl : DataLoader)
    (idxs : list nat) :
  (forall i, exists e, ImageFolder_getitem pf h (dataset dl) i = inl e) ->
  idxs <> [] ->
  exists e, fetch pf h dl idxs = inl e.
Proof.
  intros Hraise Hne. destruct idxs as [|i idxs]; [congruence|].
  unfold fetch. cbn [map_res]. cbv [mbind res_bind].
  destruct (Hraise i) as [e He]. rewrite He. eauto.
Qed.

(** X19. [get_meanstd] cannot be used on a transform list that
    [add_transforms] has already extended: its copy then ends with
    [ToTensor; Normalize; ToTensor], no image gets through it, and the
    call raises whatever the split, the batch size and the platform. *)
Theorem get_meanstd_after_add_transforms (pf : platform) (st : state)
    (transform : loc) (bs : Z) (split : string) (pre : list stage) (mean std : vec) :
  heap st !! transform = Some (pre ++ [ToTensor; Normalize mean std]) ->
  exists e, fst (get_meanstd pf transform bs split st) = inl e.
Proof.
  intros Htf. unfold get_meanstd, get_meanstd_sums.
  repeat (progress (mstep; rewrite ?Htf)).
  destruct (ImageFolder_init pf _ _) as [e|ds] eqn:Hds; mstep; [eauto|].
  destruct (DataLoader_new pf ds bs false 0) as [e|loader] eqn:Hdl; mstep; [eauto|].
  destruct (DataLoader_new_inr _ _ _ _ _ _ Hdl) as (Hl & Hbs & _).
  destruct (ImageFolder_init_inv _ _ _ _ Hds) as (entries & _ & _ & Htr & _).
  pose proof (ImageFolder_init_nonempty _ _ _ _ Hds) as Hne.
  set (h' := <[fresh (dom (heap st)) := _]> (heap st)).
  assert (Hitem : forall i, exists e,
             ImageFolder_getitem pf h' (dataset loader) i = inl e).
  { rewrite Hl. cbn [dataset].
    apply (getitem_raises pf h' ds
             (pre ++ [ToTensor; Normalize mean std; ToTensor] ++ [])).
    - rewrite Htr. cbn [transforms]. unfold h'. rewrite lookup_insert_eq.
      rewrite <- app_assoc. reflexivity.
    - intros v. apply Compose_call_second_ToTensor. }
  assert (Hloop : exists e,
             (loader_iter pf loader;;
              meanstd_loop pf h' loader (batch_indices pf loader)
                (PyFloat 0, PyFloat 0, 0%R)) = inl e).
  { cbv [mbind res_bind]. destruct (loader_iter pf loader); [eauto|].
    pose proof (batch_sampler_concat (batch_size loader) (sampler pf loader) [])
      as Hcat.
    pose proof (batch_sampler_bounds (batch_size loader) (sampler pf loader) [])
      as Hb.
    unfold batch_indices.
    destruct (batch_sampler (batch_size loader) (sampler pf loader) [])
      as [|idxs more].
    - exfalso. unfold sampler in Hcat. rewrite Hl in Hcat.
      cbn [shuffle dataset app concat] in Hcat.
      destruct (samples ds); [congruence|discriminate].
    - apply Forall_cons_1 in Hb as [[Hnil _] _]; [|rewrite Hl; cbn; lia].
      cbn [meanstd_loop]. cbv [mbind res_bind].
      destruct (fetch_raises pf h' loader idxs Hitem Hnil) as [e He].
      rewrite He. eauto. }
  destruct Hloop as [e He]. cbv [mbind] in He. rewrite He. eauto.
Qed.

Lemma get_meanstd_after_add_transforms_witness :
  exists e, fst (get_meanstd no_worker_start 1%positive 2 "train" composed) = inl e.
Proof.
  apply (get_meanstd_after_add_transforms no_worker_start composed 1%positive 2
           "train" [AFMcrop] [0.5%R] [0.25%R]).
  vm_compute. reflexivity.
Defined.

(* ------------------------------------------------------------------ *)
(** ** More on the display helper *)

Lemma clip01_bounds (x : R) : (0 <= clip01 x <= 1)%R.
Proof.
  unfold clip01. split.
  - apply Rmin_glb; [apply Rmax_r | lra].
  - apply Rmin_r.
Qed.

Lemma in_unit_clipped (a : tensor3) : in_unit (map (map (map clip01)) a).
Proof.
  unfold in_unit. apply Forall_forall. intros row Hrow.
  apply list_elem_of_In, in_map_iff in Hrow as (row0 & <- & _).
  apply Forall_forall. intros px Hpx.
  apply list_elem_of_In, in_map_iff in Hpx as (px0 & <- & _).
  apply Forall_forall. intros p Hp.
  apply list_elem_of_In, in_map_iff in Hp as (p0 & <- & _).
  apply clip01_bounds.
Qed.

(** X20. Whatever tensor, mean and std it is given, every value of the
    array [imshow] plots lies in [0, 1]. *)
Theorem imshow_array_in_unit (std mean : vec) (inp arr : tensor3) :
  imshow_array std mean inp = inr arr -> in_unit arr.
Proof.
  unfold imshow_array. cbv [mbind res_bind mret res_ret]; cbv beta iota.
  destruct (np_last Rmult std (transpose_120 inp) (length inp)) as [|[a C]];
    [discriminate|].
  destruct (np_last _ mean a C) as [|[a' C']]; [discriminate|].
  intros [= <-]. apply in_unit_clipped.
Qed.

Lemma imshow_array_in_unit_witness :
  exists arr,
    imshow_array [2; 2]%R [3; -3]%R demo_raw = inr arr /\ in_unit arr.
Proof.
  assert (H : exists arr, imshow_array [2; 2]%R [3; -3]%R demo_raw = inr arr).
  { eexists. vm_compute. reflexivity. }
  destruct H as [arr H]. exists arr. split; [exact H|].
  exact (imshow_array_in_unit [2; 2]%R [3; -3]%R demo_raw arr H).
Defined.

(** X21. [imshow] needs the [std] that [add_transforms] stores: on an
    object without it, a fresh one for instance, it raises
    [AttributeError] and plots nothing. *)
Theorem imshow_before_add_transforms (inp : tensor3) (title : option string)
    (st : state) :
  self_std (self st) = None ->
  imshow inp title st = (inl AttributeError, st).
Proof.
  intros Hs. unfold imshow.
  repeat (progress (mstep; rewrite ?Hs)). reflexivity.
Qed.

Lemma imshow_before_add_transforms_witness :
  imshow demo_raw None two_lists = (inl AttributeError, two_lists).
Proof.
  apply (imshow_before_add_transforms demo_raw None two_lists).
  reflexivity.
Defined.

(** X22. [imshow] does not check the stored [std] against the channels
    of the tensor: with several channels and a [std] of another length
    (and not of length 1) the multiplication fails to broadcast, a
    [ValueError] reaches the caller and nothing is plotted. *)
Theorem imshow_wrong_channel_count (inp : tensor3) (title : option string)
    (st : state) (std mean : vec) :
  self_std (self st) = Some std ->
  self_mean (self st) = Some mean ->
  length std <> length inp ->
  length std <> 1%nat ->
  length inp <> 1%nat ->
  imshow inp title st = (inl ValueError, st).
Proof.
  intros Hs Hm H1 H2 H3. unfold imshow.
  repeat (progress (mstep; rewrite ?Hs, ?Hm)).
  unfold imshow_array, np_last.
  destruct (decide (length std = length inp)) as [|_]; [congruence|].
  destruct (decide (length inp = 1%nat)) as [|_]; [congruence|].
  destruct std as [|x [|y std']]; cbn in H2; try congruence; reflexivity.
Qed.

Lemma imshow_wrong_channel_count_witness :
  imshow demo_raw None three_stats = (inl ValueError, three_stats).
Proof.
  apply (imshow_wrong_channel_count demo_raw None three_stats
           [0.25; 0.25; 0.25]%R [0.5; 0.5; 0.5]%R).
  - reflexivity.
  - reflexivity.
  - cbn. lia.
  - cbn. lia.
  - cbn. lia.
Defined.

(** X23. With one [std] and one [mean] per channel, the array [imshow]
    hands to the plot is height x width x channel, and its value at
    (y, x, c) is the tensor's value at (c, y, x) taken back through the
    normalisation, [std_c * v + mean_c], and clipped to [0, 1]. *)
Theorem imshow_array_pixels (std mean : vec) (inp : tensor3) (C H W : nat) :
  rect3 C H W inp ->
  (0 < C)%nat ->
  length std = C ->
  length mean = C ->
  exists arr,
    imshow_array std mean inp = inr arr /\
    rect3 H W C arr /\
    forall y x c, (y < H)%nat -> (x < W)%nat -> (c < C)%nat ->
      nth c (nth x (nth y arr []) []) 0%R =
      clip01 (nth c std 0 * at_yx y x (nth c inp []) + nth c mean 0)%R.
Proof.
  intros Hrect HC Hs Hm.
  destruct (rect3_hd C H W inp Hrect HC) as [HH HW].
  pose proof Hrect as [Hl _].
  unfold imshow_array, np_last.
  rewrite decide_True by congruence.
  cbv [mbind res_bind mret res_ret]; cbv beta iota.
  rewrite decide_True by congruence.
  eexists. split; [reflexivity|].
  unfold transpose_120. rewrite HH. rewrite !map_map.
  assert (Hpx : forall y x,
             length (map clip01
                       (zip_with (fun m p => (p + m)%R) mean
                          (zip_with Rmult std
                             (map (fun ch => nth x (nth y ch []) 0%R) inp)))) = C).
  { intros y x. rewrite length_map.
    rewrite length_zip_with_same; [exact Hm|].
    rewrite length_zip_with_same; rewrite ?length_map; congruence. }
  split.
  - split; [rewrite length_map, length_seq; reflexivity|].
    apply Forall_forall. intros row Hrow.
    apply list_elem_of_In, in_map_iff in Hrow as (y & <- & Hy).
    apply in_seq in Hy. rewrite !map_map.
    split.
    + rewrite length_map, length_seq. apply HW. lia.
    + apply Forall_forall. intros px Hin.
      apply list_elem_of_In, in_map_iff in Hin as (x & <- & _). apply Hpx.
  - intros y x c Hy Hx Hc.
    rewrite (nth_map_seq _ H y []) by exact Hy.
    rewrite !map_map. rewrite HW by lia.
    rewrite (nth_map_seq _ W x []) by exact Hx.
    rewrite (nth_indep _ 0%R (clip01 0)) by (rewrite Hpx; exact Hc).
    rewrite map_nth. f_equal.
    rewrite (nth_zip_with _ c mean _ 0%R 0%R 0%R);
      [| lia | rewrite length_zip_with_same; rewrite ?length_map; lia].
    rewrite (nth_zip_with _ c std _ 0%R 0%R 0%R);
      [| lia | rewrite length_map; lia].
    f_equal. f_equal. unfold at_yx.
    rewrite (nth_indep _ 0%R ((fun ch => nth x (nth y ch []) 0%R) []))
      by (rewrite length_map; lia).
    rewrite (map_nth (fun ch => nth x (nth y ch []) 0%R) inp [] c). reflexivity.
Qed.

Lemma imshow_array_pixels_witness :
  exists arr,
    imshow_array [2; 2; 0.5]%R [3; -3; 0]%R demo_rgb = inr arr /\
    rect3 1 2 3 arr /\
    forall y x c, (y < 1)%nat -> (x < 2)%nat -> (c < 3)%nat ->
      nth c (nth x (nth y arr []) []) 0%R =
      clip01 (nth c [2; 2; 0.5] 0 * at_yx y x (nth c demo_rgb []) + nth c [3; -3; 0] 0)%R.
Proof.
  apply (imshow_array_pixels [2; 2; 0.5]%R [3; -3; 0]%R demo_rgb 3 1 2).
  - split; [reflexivity|]. repeat constructor.
  - lia.
  - reflexivity.
  - reflexivity.
Defined.

(* ------------------------------------------------------------------ *)
(** ** Invalid loader arguments *)

Lemma DataLoader_new_invalid (pf : platform) (ds : ImageFolder) (bs : Z)
    (sh : bool) (nw : Z) :
  nw < 0 \/ bs <= 0 ->
  DataLoader_new pf ds bs sh nw = inl ValueError.
Proof.
  intros H. unfold DataLoader_new.
  destruct (Z.ltb_spec nw 0); [reflexivity|].
  destruct (Z.leb_spec bs 0); [reflexivity|]. lia.
Qed.

(** X24. The guard of [load_data] is for [RuntimeError] only.  With a
    negative number of workers or a batch size that is not positive the
    first loader construction raises [ValueError], which reaches the
    caller: there is no warning and no second attempt, and the object
    is left with its datasets stored but without loaders, sizes or
    class names. *)
Theorem load_data_invalid_arguments (pf : platform) (st : state) (bs nw : Z)
    (tr va : ImageFolder) :
  datasets_open pf st tr va ->
  nw < 0 \/ bs <= 0 ->
  load_data pf bs nw st =
    (inl ValueError,
     {| heap := heap st;
        self := with_image_datasets (<["val" := va]> (<["train" := tr]> ∅))
                  (self st);
        events := events st ++ [EvDataLoader (root tr) bs true nw] |}).
Proof.
  intros Hopen Hbad. rewrite (load_data_run pf st bs nw tr va Hopen).
  unfold guarded_outcome, guarded_events, first_loaders, construct_events,
    construct_loaders, interrupted.
  rewrite (DataLoader_new_invalid pf tr bs true nw Hbad).
  reflexivity.
Qed.

Lemma load_data_invalid_arguments_witness :
  load_data no_worker_start 0 2 composed =
    (inl ValueError,
     {| heap := heap composed;
        self := with_image_datasets
                  (<["val" := demo_dataset "val" 2%positive]>
                     (<["train" := demo_dataset "train" 1%positive]> ∅))
                  (self composed);
        events := events composed ++
                  [EvDataLoader (root (demo_dataset "train" 1%positive)) 0 true 2] |}).
Proof.
  apply (load_data_invalid_arguments no_worker_start composed 0 2
           (demo_dataset "train" 1%positive) (demo_dataset "val" 2%positive)).
  - apply demo_datasets_open. reflexivity.
  - right. lia.
Defined.

(** X25. [get_meanstd] with a batch size that is not positive raises
    [ValueError] once the split is open: its one loader construction
    is refused and no image is loaded. *)
Theorem get_meanstd_invalid_batch_size (pf : platform) (st : state)
    (transform : loc) (bs : Z) (split : string) (tf : list stage)
    (ds : ImageFolder) :
  heap st !! transform = Some tf ->
  ImageFolder_init pf (path_join (self_data_dir (self st)) split)
    {| transforms := fresh (dom (heap st)) |} = inr ds ->
  bs <= 0 ->
  fst (get_meanstd pf transform bs split st) = inl ValueError /\
  events (snd (get_meanstd pf transform bs split st)) =
    events st ++ [EvDataLoader (root ds) bs false 0].
Proof.
  intros Htf Hds Hbs. unfold get_meanstd, get_meanstd_sums.
  repeat (progress (mstep; mlookup; rewrite ?Htf, ?Hds)).
  rstep.
  rewrite (DataLoader_new_invalid pf ds bs false 0) by (right; exact Hbs).
  split; reflexivity.
Qed.

Lemma get_meanstd_invalid_batch_size_witness :
  fst (get_meanstd no_worker_start 1%positive 0 "train" two_lists) = inl ValueError /\
  events (snd (get_meanstd no_worker_start 1%positive 0 "train" two_lists)) =
    events two_lists ++
    [EvDataLoader (root (demo_dataset "train" 3%positive)) 0 false 0].
Proof.
  apply (get_meanstd_invalid_batch_size no_worker_start two_lists 1%positive 0
           "train" [AFMcrop] (demo_dataset "train" 3%positive)).
  - vm_compute. reflexivity.
  - vm_compute. reflexivity.
  - lia.
Defined.

(* ------------------------------------------------------------------ *)
(** ** The plot's shape check *)

(** X26. [imshow] can only show tensors of 1, 3 or 4 channels: for any
    other channel count, with one [std] and one [mean] per channel
    stored, the array is computed but [plt.imshow] refuses its shape, a
    [TypeError] reaches the caller and nothing is plotted. *)
Theorem imshow_unsupported_channels (inp : tensor3) (title : option string)
    (st : state) (std mean : vec) :
  self_std (self st) = Some std ->
  self_mean (self st) = Some mean ->
  length std = length inp ->
  length mean = length inp ->
  length inp <> 1%nat ->
  length inp <> 3%nat ->
  length inp <> 4%nat ->
  imshow inp title st = (inl TypeError, st).
Proof.
  intros Hs Hm Hls Hlm H1 H3 H4.
  rewrite (imshow_run st inp title std mean Hs Hm).
  unfold np_last.
  rewrite decide_True by exact Hls.
  cbv [mret res_ret]; cbv beta iota.
  rewrite decide_True by exact Hlm.
  cbv beta iota. unfold plt_imshow.
  destruct (length inp) as [|[|[|[|[|n]]]]]; try reflexivity; congruence.
Qed.

Lemma imshow_unsupported_channels_witness :
  imshow demo_raw None two_stats = (inl TypeError, two_stats).
Proof.
  apply (imshow_unsupported_channels demo_raw None two_stats
           [0.25; 0.5]%R [0.5; 0.5]%R).
  - reflexivity.
  - reflexivity.
  - reflexivity.
  - reflexivity.
  - cbn. lia.
  - cbn. lia.
  - cbn. lia.
Defined.
